(** * server_environment: the [server.env.mixin] model mixin

    A shallow embedding of [server_environment/models/server_env_mixin.py]
    and the properties of its two halves:

    - the compute routine [_compute_server_env], which resolves every
      declared field of a record from the configuration files or, failing
      that, from the companion field [<field>_env_default];
    - the setup hook [_setup_base], which turns every declared field into a
      computed field and registers its companion.

    Python objects that the code mutates in place (field descriptors and
    their [args] dictionaries) live in a store indexed by references, so
    that two names for one object see the same mutation.  Exceptions are
    values; the state survives them, as a Python heap does. *)

From Stdlib Require Import Ascii String.
From stdpp Require Import gmap strings list fin_maps.

Local Open Scope string_scope.

(** ** Python values and exceptions *)

Inductive pyvalue : Type :=
  | PyNone
  | PyBool (b : bool)
  | PyInt (z : Z)
  | PyStr (s : string).

#[global] Instance pyvalue_eq_dec : EqDecision pyvalue.
Proof. solve_decision. Defined.

Inductive exn : Type :=
  | ValueError (msg : string)
  | KeyError (key : string)
  | AttributeError (attr : string)
  | TypeError (msg : string)
  | ConfigError (msg : string)
  | SystemError (msg : string).

#[global] Instance exn_eq_dec : EqDecision exn.
Proof. solve_decision. Defined.

Inductive result (A : Type) : Type :=
  | Ok (a : A)
  | Raise (e : exn).

Arguments Ok {A} a.
Arguments Raise {A} e.

(** ** Computations over a mutable state that may raise

    A computation takes the state and gives back an outcome together with
    the state it leaves behind; what was written before an exception stays
    written. *)

Module Py.

Definition M (S A : Type) : Type := S → result A * S.

Definition ret {S A} (a : A) : M S A := λ σ, (Ok a, σ).

Definition raise {S A} (e : exn) : M S A := λ σ, (Raise e, σ).

Definition bind {S A B} (c : M S A) (k : A → M S B) : M S B :=
  λ σ, match c σ with
       | (Ok a, σ') => k a σ'
       | (Raise e, σ') => (Raise e, σ')
       end.

Definition gets {S A} (f : S → A) : M S A := λ σ, (Ok (f σ), σ).

Definition modify {S} (f : S → S) : M S unit := λ σ, (Ok tt, f σ).

(** [try: c except: h] with a bare [except] clause: every exception is
    handed to the handler. *)
Definition try_except {S A} (c : M S A) (h : exn → M S A) : M S A :=
  λ σ, match c σ with
       | (Ok a, σ') => (Ok a, σ')
       | (Raise e, σ') => h e σ'
       end.

(** A pure call that may raise. *)
Definition lift {S A} (r : result A) : M S A := λ σ, (r, σ).

(** [for x in xs: body x] *)
Fixpoint for_each {S A} (xs : list A) (body : A → M S unit) : M S unit :=
  match xs with
  | [] => ret tt
  | x :: xs' => bind (body x) (λ _, for_each xs' body)
  end.

End Py.

Notation "x <- c ;; k" := (Py.bind c (λ x, k))
  (at level 100, c at next level, right associativity, only parsing).
Notation "c ;; k" := (Py.bind c (λ _, k))
  (at level 100, right associativity, only parsing).

(** ** Strings *)

(** [s.replace(old, new)] for one-character [old] and [new]. *)
Fixpoint str_replace (old new : ascii) (s : string) : string :=
  match s with
  | EmptyString => EmptyString
  | String c s' =>
      String (if Ascii.eqb c old then new else c) (str_replace old new s')
  end.

(** [sep.join(parts)]: every part has to be a [str]. *)
Fixpoint str_parts (parts : list pyvalue) : result (list string) :=
  match parts with
  | [] => Ok []
  | PyStr s :: rest =>
      match str_parts rest with
      | Ok l => Ok (s :: l)
      | Raise e => Raise e
      end
  | _ :: _ => Raise (TypeError "sequence item: expected str instance")
  end.

Definition str_join (sep : string) (parts : list pyvalue) : result string :=
  match str_parts parts with
  | Ok l => Ok (String.concat sep l)
  | Raise e => Raise e
  end.

(** ** The configuration store [serv_config]

    The module-level object imported from [..serv_config]; the mixin uses
    three things of it: [section in serv_config], [key in
    serv_config[section]], and [getattr(serv_config, getter)(section, key)]. *)

Record ConfigStore : Type := {
  cfg_contains : string → bool;
  cfg_section_contains : string → string → bool;
  cfg_getattr : string → option (string → string → result pyvalue)
}.

(** ** Field descriptors and the record type *)

Abbreviation loc := positive.

(** A field descriptor object.  [f_args] is a reference to the dictionary
    of constructor arguments; an attribute that was never assigned on the
    instance is [None]. *)
Record field : Type := Field {
  f_class : string;
  f_name : string;
  f_args : loc;
  f_compute : option pyvalue;
  f_store : option pyvalue;
  f_copy : option pyvalue;
  f_sparse : option pyvalue
}.

Definition set_f_name (v : string) (f : field) : field :=
  Field (f_class f) v (f_args f) (f_compute f) (f_store f) (f_copy f) (f_sparse f).
Definition set_f_compute (v : pyvalue) (f : field) : field :=
  Field (f_class f) (f_name f) (f_args f) (Some v) (f_store f) (f_copy f) (f_sparse f).
Definition set_f_store (v : pyvalue) (f : field) : field :=
  Field (f_class f) (f_name f) (f_args f) (f_compute f) (Some v) (f_copy f) (f_sparse f).
Definition set_f_copy (v : pyvalue) (f : field) : field :=
  Field (f_class f) (f_name f) (f_args f) (f_compute f) (f_store f) (Some v) (f_sparse f).
Definition set_f_sparse (v : pyvalue) (f : field) : field :=
  Field (f_class f) (f_name f) (f_args f) (f_compute f) (f_store f) (f_copy f) (Some v).

(** The record type (the model class) with the objects reachable from it.

    - [_name]: the type's identifier;
    - [_server_env_fields]: the items of the declared dictionary, in
      iteration order (a dictionary: no key occurs twice);
    - [_fields]: field name to descriptor object;
    - [field_heap], [dict_heap]: the descriptor objects and the [args]
      dictionaries;
    - [add_field_calls]: the names [_add_field] was called with, oldest
      first. *)
Record model : Type := Model {
  _name : string;
  _server_env_fields : list (string * string);
  _fields : gmap string loc;
  field_heap : gmap loc field;
  dict_heap : gmap loc (gmap string pyvalue);
  add_field_calls : list string
}.

Definition set_fields (g : gmap string loc → gmap string loc) (m : model) : model :=
  Model (_name m) (_server_env_fields m) (g (_fields m)) (field_heap m)
        (dict_heap m) (add_field_calls m).
Definition set_field_heap (g : gmap loc field → gmap loc field) (m : model) : model :=
  Model (_name m) (_server_env_fields m) (_fields m) (g (field_heap m))
        (dict_heap m) (add_field_calls m).
Definition set_dict_heap
    (g : gmap loc (gmap string pyvalue) → gmap loc (gmap string pyvalue))
    (m : model) : model :=
  Model (_name m) (_server_env_fields m) (_fields m) (field_heap m)
        (g (dict_heap m)) (add_field_calls m).
Definition set_add_field_calls (g : list string → list string) (m : model) : model :=
  Model (_name m) (_server_env_fields m) (_fields m) (field_heap m)
        (dict_heap m) (g (add_field_calls m)).

(** ** Records

    A recordset is the list of its record ids.  The values of the records
    are in a cache shared by every recordset, so that [self] and [record]
    read and write the same slots; the log is the module's [_logger]. *)
Record env : Type := Env {
  cache : gmap (Z * string) pyvalue;
  log : list string
}.

Definition recordset : Type := list Z.

(** ** The compute half *)

Section Resolution.

(** The module-level configuration store. *)
Variable serv_config : ConfigStore.

(** What the host framework hands out when a field that holds no value is
    read; it is the framework's choice, per field. *)
Variable null_of : string → pyvalue.

(** The record type of [self]. *)
Variable m : model.

(** [record[key]] *)
Definition record_getitem (record : Z) (key : string) : Py.M env pyvalue :=
  match _fields m !! key with
  | None => Py.raise (KeyError key)
  | Some _ => Py.gets (λ σ, default (null_of key) (cache σ !! (record, key)))
  end.

(** [record.attr] *)
Definition record_getattr (record : Z) (attr : string) : Py.M env pyvalue :=
  match _fields m !! attr with
  | None => Py.raise (AttributeError attr)
  | Some _ => Py.gets (λ σ, default (null_of attr) (cache σ !! (record, attr)))
  end.

(** [record[key] = value] *)
Definition record_setitem (record : Z) (key : string) (value : pyvalue)
    : Py.M env unit :=
  match _fields m !! key with
  | None => Py.raise (KeyError key)
  | Some _ =>
      Py.modify (λ σ, Env (<[(record, key) := value]> (cache σ)) (log σ))
  end.

(** [self.ensure_one()]: the one record of [self], or [ValueError]. *)
Definition ensure_one (self : recordset) : Py.M env Z :=
  match self with
  | [record] => Py.ret record
  | _ => Py.raise (ValueError "Expected singleton")
  end.

(** [_logger.exception(msg)] *)
Definition logger_exception (msg : string) : Py.M env unit :=
  Py.modify (λ σ, Env (cache σ) (log σ ++ [msg])%list).

Definition _server_env_section_name (self : recordset) : Py.M env string :=
  this <- ensure_one self ;;
  name <- record_getattr this "name" ;;
  Py.lift (str_join "." [PyStr (str_replace "."%char "_"%char (_name m)); name]).

Definition read_error_message (field_name section_name : string) : string :=
  "error trying to read field " ++ field_name ++ " in section " ++ section_name.

Definition _server_env_read_from_config
    (self : recordset) (section_name field_name config_getter : string)
    : Py.M env pyvalue :=
  _ <- ensure_one self ;;
  Py.try_except
    (getter <- Py.lift
       match cfg_getattr serv_config config_getter with
       | Some g => Ok g
       | None => Raise (AttributeError config_getter)
       end ;;
     Py.lift (getter section_name field_name))
    (λ _,
       logger_exception (read_error_message field_name section_name) ;;
       Py.ret (PyBool false)).

Definition _server_env_default_fieldname (base_field_name : string) : string :=
  base_field_name ++ "_env_default".

(** The body of the inner loop of [_compute_server_env]. *)
Definition compute_field
    (self : recordset) (record : Z) (item : string * string) : Py.M env unit :=
  let '(field_name, getter_name) := item in
  section_name <- _server_env_section_name self ;;
  value <-
    (if cfg_contains serv_config section_name
        && cfg_section_contains serv_config section_name field_name
     then _server_env_read_from_config self section_name field_name getter_name
     else
       let default_field := _server_env_default_fieldname field_name in
       record_getitem record default_field) ;;
  record_setitem record field_name value.

Definition _compute_server_env (self : recordset) : Py.M env unit :=
  Py.for_each self (λ record,
    Py.for_each (_server_env_fields m) (compute_field self record)).

End Resolution.

(** ** The setup half *)

(** [self._fields[fieldname]] *)
Definition fields_getitem (fieldname : string) : Py.M model loc :=
  λ m, match _fields m !! fieldname with
       | Some l => (Ok l, m)
       | None => (Raise (KeyError fieldname), m)
       end.

(** [fieldname in self._fields] *)
Definition fields_contains (fieldname : string) : Py.M model bool :=
  Py.gets (λ m, match _fields m !! fieldname with Some _ => true | None => false end).

(** Reading and writing through a reference.  A reference to nothing cannot
    be built in Python; the model raises [SystemError] on one. *)
Definition field_get (l : loc) : Py.M model field :=
  λ m, match field_heap m !! l with
       | Some f => (Ok f, m)
       | None => (Raise (SystemError "no such object"), m)
       end.

Definition field_set (l : loc) (upd : field → field) : Py.M model unit :=
  f <- field_get l ;;
  Py.modify (set_field_heap (<[l := upd f]>)).

Definition dict_get (d : loc) : Py.M model (gmap string pyvalue) :=
  λ m, match dict_heap m !! d with
       | Some a => (Ok a, m)
       | None => (Raise (SystemError "no such object"), m)
       end.

Definition dict_set (d : loc) (upd : gmap string pyvalue → gmap string pyvalue)
    : Py.M model unit :=
  a <- dict_get d ;;
  Py.modify (set_dict_heap (<[d := upd a]>)).

(** [d.pop(key, None)], the value dropped. *)
Definition dict_pop (d : loc) (key : string) : Py.M model unit :=
  dict_set d (delete key).

(** [d.update({k1: v1, ...})] *)
Definition dict_update (d : loc) (items : list (string * pyvalue)) : Py.M model unit :=
  dict_set d (λ a, foldl (λ acc kv, <[kv.1 := kv.2]> acc) a items).

(** [cls( **kwargs )]: a new descriptor object of class [cls] whose [args] is
    a new dictionary holding the keyword arguments; no attribute is assigned
    on the instance yet. *)
Definition field_new (cls : string) (kwargs : loc) : Py.M model loc :=
  a <- dict_get kwargs ;;
  d <- (λ m, let l := fresh (dom (dict_heap m)) in
             (Ok l, set_dict_heap (<[l := a]>) m)) ;;
  (λ m, let l := fresh (dom (field_heap m)) in
        (Ok l, set_field_heap (<[l := Field cls "" d None None None None]>) m)).

(** [self._add_field(name, field)]: the framework names the descriptor and
    registers it on the type. *)
Definition _add_field (name : string) (field : loc) : Py.M model unit :=
  field_set field (set_f_name name) ;;
  Py.modify (set_fields (<[name := field]>)) ;;
  Py.modify (set_add_field_calls (λ calls, (calls ++ [name])%list)).

Definition _server_env_transform_field_to_read_from_env (field : loc)
    : Py.M model unit :=
  field_set field (set_f_compute (PyStr "_compute_server_env")) ;;
  field_set field (set_f_store (PyBool false)) ;;
  field_set field (set_f_copy (PyBool false)) ;;
  field_set field (set_f_sparse PyNone).

Definition _server_env_add_default_field (base_field : loc) : Py.M model unit :=
  bf <- field_get base_field ;;
  let fieldname := _server_env_default_fieldname (f_name bf) in
  present <- fields_contains fieldname ;;
  if negb present then
    let base_field_cls := f_class bf in
    let field_args := f_args bf in
    dict_pop field_args "_sequence" ;;
    dict_update field_args
      [("sparse", PyStr "server_env_defaults"); ("automatic", PyBool true)] ;;
    field <- field_new base_field_cls field_args ;;
    _add_field fieldname field
  else Py.ret tt.

(** [super()._setup_base()]: the framework's own setup.  The state of the
    model is the type as the framework leaves it to the mixin's loop. *)
Definition super_setup_base : Py.M model unit := Py.ret tt.

(** The body of the loop of [_setup_base]. *)
Definition setup_field (fieldname : string) : Py.M model unit :=
  field <- fields_getitem fieldname ;;
  _server_env_transform_field_to_read_from_env field ;;
  _server_env_add_default_field field.

Definition _setup_base : Py.M model unit :=
  super_setup_base ;;
  declared <- Py.gets _server_env_fields ;;
  Py.for_each (map fst declared) setup_field.

(** ** A configuration store and a record type to run the code on *)

(** Modelled from the spec: the Config Resolver behind [serv_config], a
    store of named sections of raw strings with a membership test and the
    typed getters [get], [get_bool] and [get_int], which raise on a
    missing entry or on a value that cannot be coerced. *)
Module Resolver.

Definition raw (sections : gmap string (gmap string string))
    (section key : string) : result string :=
  match sections !! section with
  | None => Raise (ConfigError "no section")
  | Some entries =>
      match entries !! key with
      | None => Raise (ConfigError "no option")
      | Some v => Ok v
      end
  end.

Definition digit (c : ascii) : option Z :=
  let n := Z.of_nat (nat_of_ascii c) in
  if (48 <=? n)%Z && (n <=? 57)%Z then Some (n - 48)%Z else None.

Fixpoint digits (s : string) (acc : Z) : option Z :=
  match s with
  | EmptyString => Some acc
  | String c s' =>
      match digit c with
      | Some d => digits s' (10 * acc + d)%Z
      | None => None
      end
  end.

Definition to_int (s : string) : result pyvalue :=
  match s with
  | EmptyString => Raise (ValueError "invalid literal for int()")
  | String c s' =>
      let parsed :=
        if Ascii.eqb c "-"%char
        then match s' with
             | EmptyString => None
             | _ => Z.opp <$> digits s' 0
             end
        else digits s 0 in
      match parsed with
      | Some z => Ok (PyInt z)
      | None => Raise (ValueError "invalid literal for int()")
      end
  end.

Definition to_bool (s : string) : result pyvalue :=
  if bool_decide (s ∈ ["1"; "yes"; "true"; "on"]) then Ok (PyBool true)
  else if bool_decide (s ∈ ["0"; "no"; "false"; "off"]) then Ok (PyBool false)
  else Raise (ValueError "Not a boolean").

Definition typed (sections : gmap string (gmap string string))
    (coerce : string → result pyvalue) (section key : string) : result pyvalue :=
  match raw sections section key with
  | Ok v => coerce v
  | Raise e => Raise e
  end.

Definition store (sections : gmap string (gmap string string)) : ConfigStore := {|
  cfg_contains := λ section, bool_decide (is_Some (sections !! section));
  cfg_section_contains := λ section key,
    match sections !! section with
    | Some entries => bool_decide (is_Some (entries !! key))
    | None => false
    end;
  cfg_getattr := λ getter,
    if bool_decide (getter = "get") then Some (typed sections (λ v, Ok (PyStr v)))
    else if bool_decide (getter = "get_bool") then Some (typed sections to_bool)
    else if bool_decide (getter = "get_int") then Some (typed sections to_int)
    else None
|}.

End Resolver.

Module Example.

(** [[storage_backend.Primary]] sets a path and a port that is not a
    number; [[storage_backend.Secondary]] does not exist. *)
Definition sections : gmap string (gmap string string) :=
  {[ "storage_backend.Primary" :=
       {[ "directory_path" := "/srv/primary"; "sftp_port" := "twenty-two" ]} ]}.

Definition serv_config : ConfigStore := Resolver.store sections.

(** The reading of a field without a value, as the host framework does it:
    [False] but for integer fields, which read [0]. *)
Definition null_of (key : string) : pyvalue :=
  if bool_decide (key ∈ ["sftp_port"; "sftp_port_env_default"]) then PyInt 0
  else PyBool false.

(** The class of the docstring: [storage.backend] with its fields as
    declared, before setup. *)
Definition storage_backend : model := {|
  _name := "storage.backend";
  _server_env_fields := [("directory_path", "get"); ("sftp_port", "get_int")];
  _fields := {[ "name" := 1%positive; "directory_path" := 2%positive;
                "sftp_port" := 3%positive ]};
  field_heap :=
    {[ 1%positive := Field "Char" "name" 11%positive None None None None;
       2%positive := Field "Char" "directory_path" 12%positive
                       None (Some (PyBool true)) (Some (PyBool true)) None;
       3%positive := Field "Integer" "sftp_port" 13%positive None None None None ]};
  dict_heap :=
    {[ 11%positive := {[ "_sequence" := PyInt 7; "required" := PyBool true ]};
       12%positive := {[ "_sequence" := PyInt 8; "string" := PyStr "Path" ]};
       13%positive := {[ "_sequence" := PyInt 9 ]} ]};
  add_field_calls := []
|}.

(** The same type once [_setup_base] has run. *)
Definition storage_backend_ready : model := (_setup_base storage_backend).2.

(** Three records: 1 is "Primary" with a stored default path, 2 is
    "Secondary" with another, 3 is "Tertiary" and has no default stored. *)
Definition records : env := {|
  cache :=
    {[ (1%Z, "name") := PyStr "Primary";
       (1%Z, "directory_path_env_default") := PyStr "/var/one";
       (2%Z, "name") := PyStr "Secondary";
       (2%Z, "directory_path_env_default") := PyStr "/var/two";
       (3%Z, "name") := PyStr "Tertiary" ]};
  log := []
|}.


(** A type that declares a field and, after it, the name of its
    companion, which is no field of the type. *)
Definition chained_backend : model := {|
  _name := "storage.backend";
  _server_env_fields :=
    [("directory_path", "get"); ("directory_path_env_default", "get")];
  _fields := {[ "name" := 1%positive; "directory_path" := 2%positive ]};
  field_heap :=
    {[ 1%positive := Field "Char" "name" 11%positive None None None None;
       2%positive := Field "Char" "directory_path" 12%positive None None None None ]};
  dict_heap :=
    {[ 11%positive := {[ "_sequence" := PyInt 7 ]};
       12%positive := {[ "_sequence" := PyInt 8 ]} ]};
  add_field_calls := []
|}.

(** A type that declares a name without a field. *)
Definition misdeclared_backend : model := {|
  _name := "storage.backend";
  _server_env_fields := [("directory_path", "get"); ("sftp_login", "get")];
  _fields := {[ "name" := 1%positive; "directory_path" := 2%positive ]};
  field_heap :=
    {[ 1%positive := Field "Char" "name" 11%positive None None None None;
       2%positive := Field "Char" "directory_path" 12%positive None None None None ]};
  dict_heap :=
    {[ 11%positive := {[ "_sequence" := PyInt 7 ]};
       12%positive := {[ "_sequence" := PyInt 8 ]} ]};
  add_field_calls := []
|}.

End Example.

(** ** Vocabulary of the properties *)

(** The lookup [getattr(serv_config, getter)(section, key)] raises: the
    getter is no attribute of the store, or the call raises. *)
Definition lookup_raises (serv_config : ConfigStore)
    (getter section key : string) : Prop :=
  match cfg_getattr serv_config getter with
  | Some get => ∃ e, get section key = Raise e
  | None => True
  end.

(** The store has the section and, in it, the key: the test of
    [_compute_server_env]. *)
Definition config_has (serv_config : ConfigStore) (section key : string) : bool :=
  cfg_contains serv_config section && cfg_section_contains serv_config section key.

(** The empty value of a getter kind, in the words of the specification:
    the empty string for [get], false for [get_bool], 0 or empty for
    [get_int]. *)
Definition py_empty (v : pyvalue) : Prop :=
  v = PyNone ∨ v = PyBool false ∨ v = PyInt 0 ∨ v = PyStr "".

Definition empty_for_getter (getter_kind : string) (v : pyvalue) : Prop :=
  (getter_kind = "get" → v = PyStr "") ∧
  (getter_kind = "get_bool" → v = PyBool false) ∧
  (getter_kind = "get_int" → v = PyInt 0 ∨ py_empty v).

(** A descriptor as [_server_env_transform_field_to_read_from_env] leaves
    it: computed by the shared routine, not stored, not copied, not
    sparse. *)
Definition reads_from_env (f : field) : Prop :=
  f_compute f = Some (PyStr "_compute_server_env") ∧
  f_store f = Some (PyBool false) ∧
  f_copy f = Some (PyBool false) ∧
  f_sparse f = Some PyNone.

(** Constructor arguments that store the field in the serialized field
    [server_env_defaults]. *)
Definition in_defaults_blob (args : gmap string pyvalue) : Prop :=
  args !! "sparse" = Some (PyStr "server_env_defaults").

(** The framework's invariant on [_fields]: the descriptor registered
    under a name is an object named so, and its [args] is an object. *)
Definition fields_named (m : model) : Prop :=
  ∀ name l, _fields m !! name = Some l →
    ∃ f, field_heap m !! l = Some f ∧ f_name f = name ∧
         is_Some (dict_heap m !! f_args f).

(** The arguments of the companion field, from those of the field. *)
Definition default_field_args (args : gmap string pyvalue) : gmap string pyvalue :=
  <["automatic" := PyBool true]>
    (<["sparse" := PyStr "server_env_defaults"]> (delete "_sequence" args)).

(** The descriptor after the four assignments of the transformation. *)
Definition transformed (f : field) : field :=
  Field (f_class f) (f_name f) (f_args f)
        (Some (PyStr "_compute_server_env")) (Some (PyBool false))
        (Some (PyBool false)) (Some PyNone).

(** The type after [_server_env_add_default_field] has created the
    companion of the descriptor [bf], whose [args] held [args]. *)
Definition with_default_field (m : model) (bf : field) (args : gmap string pyvalue)
    : model :=
  let fieldname := _server_env_default_fieldname (f_name bf) in
  let dicts := <[f_args bf := default_field_args args]> (dict_heap m) in
  let d := fresh (dom dicts) in
  let l := fresh (dom (field_heap m)) in
  Model (_name m) (_server_env_fields m)
        (<[fieldname := l]> (_fields m))
        (<[l := Field (f_class bf) fieldname d None None None None]> (field_heap m))
        (<[d := default_field_args args]> dicts)
        (add_field_calls m ++ [fieldname]).

(** A declared field is set up on the type: its descriptor reads from the
    environment and the companion named after it is registered. *)
Definition set_up (m : model) (fieldname : string) : Prop :=
  ∃ l f,
    _fields m !! fieldname = Some l ∧
    field_heap m !! l = Some f ∧
    reads_from_env f ∧
    is_Some (_fields m !! _server_env_default_fieldname (f_name f)).

(** What the setup hook may do to a type: nothing is unregistered, an
    object keeps its name, class and [args] and stays transformed once it
    is, a dictionary that stores in the blob goes on doing so, and the
    calls of [_add_field] are the names that were not registered before,
    once each, every one for a companion stored in the blob. *)
Record grows (m m' : model) : Prop := Grows {
  grows_name : _name m' = _name m;
  grows_declared : _server_env_fields m' = _server_env_fields m;
  grows_fields : ∀ k l, _fields m !! k = Some l → _fields m' !! k = Some l;
  grows_objects : ∀ l f, field_heap m !! l = Some f →
    ∃ f', field_heap m' !! l = Some f' ∧
          f_name f' = f_name f ∧ f_args f' = f_args f ∧ f_class f' = f_class f ∧
          (reads_from_env f → reads_from_env f');
  grows_dicts : ∀ d a, dict_heap m !! d = Some a →
    ∃ a', dict_heap m' !! d = Some a' ∧
          (in_defaults_blob a → in_defaults_blob a');
  grows_calls : ∃ new,
    add_field_calls m' = (add_field_calls m ++ new)%list ∧
    NoDup new ∧
    ∀ s, s ∈ new ↔ _fields m !! s = None ∧ is_Some (_fields m' !! s);
  grows_created : ∀ s l, _fields m !! s = None → _fields m' !! s = Some l →
    ∃ f a, field_heap m' !! l = Some f ∧ f_name f = s ∧
           dict_heap m' !! f_args f = Some a ∧ in_defaults_blob a
}.

(** [n] runs of the setup hook in a row. *)
Definition setup_runs (n : nat) : Py.M model unit :=
  Py.for_each (replicate n tt) (λ _, _setup_base).

(** ** Vocabulary of the further properties *)

(** A sequence of assignments [record[field] = value], applied to a cache
    in order. *)
Definition apply_writes (writes : list (Z * string * pyvalue))
    (c : gmap (Z * string) pyvalue) : gmap (Z * string) pyvalue :=
  foldl (λ acc w, <[w.1 := w.2]> acc) c writes.

(** What the setup hook keeps of the registry, however it ends: a name
    stays registered to its object, a name registered anew goes to an
    object that did not exist, and an object stays where it is with its
    name, its class and its [args]. *)
Record keeps (m m' : model) : Prop := Keeps {
  keeps_fields : ∀ k l, _fields m !! k = Some l → _fields m' !! k = Some l;
  keeps_new : ∀ k l, _fields m !! k = None → _fields m' !! k = Some l →
                     field_heap m !! l = None;
  keeps_objects : ∀ l f, field_heap m !! l = Some f →
    ∃ f', field_heap m' !! l = Some f' ∧
          f_name f' = f_name f ∧ f_class f' = f_class f ∧ f_args f' = f_args f
}.

(** What the setup hook does to the dictionaries of arguments: each one is
    as it was, or was rewritten as the arguments of a companion. *)
Definition args_evolve (m m' : model) : Prop :=
  ∀ d a, dict_heap m !! d = Some a →
    dict_heap m' !! d = Some a ∨ dict_heap m' !! d = Some (default_field_args a).

(** The mixin on its own: no field is declared. *)
Module Mixin.

Definition bare : model := {|
  _name := "server.env.mixin";
  _server_env_fields := [];
  _fields := {[ "server_env_defaults" := 1%positive ]};
  field_heap :=
    {[ 1%positive := Field "Serialized" "server_env_defaults" 11%positive
                       None None None None ]};
  dict_heap := {[ 11%positive := {[ "_sequence" := PyInt 1 ]} ]};
  add_field_calls := []
|}.

End Mixin.

(** * Properties *)

(** ** Loops and sequencing *)

Lemma bind_ok {S A B} (c : Py.M S A) (k : A → Py.M S B) σ b σ' :
  Py.bind c k σ = (Ok b, σ') →
  ∃ a σ1, c σ = (Ok a, σ1) ∧ k a σ1 = (Ok b, σ').
Proof.
  unfold Py.bind. destruct (c σ) as [[a|e] σ1]; [eauto | discriminate].
Qed.

Lemma bind_run {S A B} (c : Py.M S A) (k : A → Py.M S B) σ a σ1 :
  c σ = (Ok a, σ1) → Py.bind c k σ = k a σ1.
Proof. intros H. unfold Py.bind. by rewrite H. Qed.

Lemma bind_raise {S A B} (c : Py.M S A) (k : A → Py.M S B) σ e σ1 :
  c σ = (Raise e, σ1) → Py.bind c k σ = (Raise e, σ1).
Proof. intros H. unfold Py.bind. by rewrite H. Qed.

(** Run the first command of a sequence, given what it returns. *)
Ltac bind_step :=
  lazymatch goal with
  | |- Py.bind ?c ?k ?σ = _ => erewrite (bind_run c k σ)
  end.

Ltac bind_stop :=
  lazymatch goal with
  | |- Py.bind ?c ?k ?σ = _ => erewrite (bind_raise c k σ)
  end.

Lemma for_each_app {S A} (xs ys : list A) (body : A → Py.M S unit) σ :
  Py.for_each (xs ++ ys) body σ =
  match Py.for_each xs body σ with
  | (Ok _, σ1) => Py.for_each ys body σ1
  | (Raise e, σ1) => (Raise e, σ1)
  end.
Proof.
  revert σ. induction xs as [|x xs IH]; intros σ; simpl; [done|].
  unfold Py.bind. destruct (body x σ) as [[[]|e] σ1]; [apply IH | done].
Qed.

Lemma for_each_cons {S A} (x : A) (xs : list A) (body : A → Py.M S unit) σ :
  Py.for_each (x :: xs) body σ =
  match body x σ with
  | (Ok _, σ1) => Py.for_each xs body σ1
  | (Raise e, σ1) => (Raise e, σ1)
  end.
Proof. reflexivity. Qed.

(** A loop that ends well went through every element, one state after the
    other. *)
Lemma for_each_split {S A} (xs : list A) x (ys : list A) (body : A → Py.M S unit) σ σ' :
  Py.for_each (xs ++ x :: ys) body σ = (Ok tt, σ') →
  ∃ σ1 σ2,
    Py.for_each xs body σ = (Ok tt, σ1) ∧
    body x σ1 = (Ok tt, σ2) ∧
    Py.for_each ys body σ2 = (Ok tt, σ').
Proof.
  rewrite for_each_app.
  destruct (Py.for_each xs body σ) as [[[]|e] σ1]; [|discriminate].
  simpl. intros H. apply bind_ok in H as ([] & σ2 & Hx & Hys). eauto.
Qed.

(** ** Section names *)

Lemma str_replace_length old new s :
  String.length (str_replace old new s) = String.length s.
Proof. induction s as [|c s IH]; simpl; congruence. Qed.

Lemma str_replace_get old new s i :
  String.get i (str_replace old new s) =
  (λ c, if Ascii.eqb c old then new else c) <$> String.get i s.
Proof.
  revert i. induction s as [|c s IH]; intros i; simpl; [done|].
  destruct i as [|i]; [done | apply IH].
Qed.

Section ResolutionFacts.

Variable serv_config : ConfigStore.
Variable null_of : string → pyvalue.
Variable m : model.

Local Abbreviation section_name := (_server_env_section_name null_of m).
Local Abbreviation getitem := (record_getitem null_of m).

(** Reading never writes. *)
Lemma record_getattr_state record attr σ :
  (record_getattr null_of m record attr σ).2 = σ.
Proof. unfold record_getattr. by destruct (_fields m !! attr). Qed.

Lemma record_getitem_state record key σ : (getitem record key σ).2 = σ.
Proof. unfold record_getitem. by destruct (_fields m !! key). Qed.

Lemma section_name_state self σ : (section_name self σ).2 = σ.
Proof.
  unfold _server_env_section_name, Py.bind, ensure_one.
  destruct self as [|record [|? ?]]; simpl; try done.
  pose proof (record_getattr_state record "name" σ) as H.
  destruct (record_getattr null_of m record "name" σ) as [[v|e] σ1];
    simpl in *; subst; [|done].
  unfold Py.lift. done.
Qed.

(** The section name is only computed for a recordset of one record. *)
Lemma section_name_singleton self σ s :
  (section_name self σ).1 = Ok s → ∃ record, self = [record].
Proof.
  unfold _server_env_section_name, Py.bind, ensure_one.
  destruct self as [|record [|? ?]]; simpl; try discriminate. eauto.
Qed.

Lemma section_name_run (record : Z) (name : string) (σ : env) :
  (record_getattr null_of m record "name" σ).1 = Ok (PyStr name) →
  section_name [record] σ
    = (Ok (str_replace "." "_" (_name m) ++ "." ++ name), σ).
Proof.
  intros Hname.
  unfold _server_env_section_name, Py.bind, ensure_one. simpl.
  pose proof (record_getattr_state record "name" σ) as Hσ.
  destruct (record_getattr null_of m record "name" σ) as [[v|e] σ1];
    simpl in *; simplify_eq.
  done.
Qed.

(** C8: for a single record whose display name reads as the string
    [name], the section name is the type's identifier with every dot
    replaced by an underscore, then a dot, then [name]; the identifier
    part has the length of the identifier and differs from it exactly
    where the identifier has a dot. *)
Theorem section_name_default (record : Z) (name : string) (σ : env) :
  (record_getattr null_of m record "name" σ).1 = Ok (PyStr name) →
  let prefix := str_replace "." "_" (_name m) in
  section_name [record] σ = (Ok (prefix ++ "." ++ name), σ) ∧
  String.length prefix = String.length (_name m) ∧
  ∀ i, String.get i prefix =
       (λ c, if Ascii.eqb c "." then "_"%char else c) <$> String.get i (_name m).
Proof.
  intros Hname prefix.
  split; [by apply section_name_run|].
  split; [apply str_replace_length | apply str_replace_get].
Qed.

End ResolutionFacts.

(** The record of type [storage.backend] named "Primary" has the section
    [storage_backend.Primary]. *)
Lemma section_name_default_witness :
  (record_getattr Example.null_of Example.storage_backend 1 "name" Example.records).1
    = Ok (PyStr "Primary") ∧
  _server_env_section_name Example.null_of Example.storage_backend [1%Z] Example.records
    = (Ok "storage_backend.Primary", Example.records).
Proof.
  split; [reflexivity|].
  destruct (section_name_default Example.null_of Example.storage_backend
              1 "Primary" Example.records eq_refl) as (H & _ & _).
  rewrite H. reflexivity.
Defined.

(** ** Reading the configuration *)

Section ReadFromConfig.

Variable serv_config : ConfigStore.

Local Abbreviation read_from_config := (_server_env_read_from_config serv_config).

(** On one record the helper always returns, and never touches the
    cache. *)
Lemma read_from_config_returns record section key getter σ :
  ∃ v σ',
    read_from_config [record] section key getter σ = (Ok v, σ') ∧
    cache σ' = cache σ ∧
    (∀ get w, cfg_getattr serv_config getter = Some get →
              get section key = Ok w → v = w ∧ σ' = σ) ∧
    (lookup_raises serv_config getter section key →
       v = PyBool false ∧
       σ' = Env (cache σ) (log σ ++ [read_error_message key section])).
Proof.
  unfold _server_env_read_from_config, lookup_raises, Py.bind, Py.try_except,
    Py.lift, ensure_one, logger_exception, Py.modify, Py.ret; simpl.
  destruct (cfg_getattr serv_config getter) as [get|]; simpl.
  - destruct (get section key) as [w|e] eqn:Hget; simpl.
    + eexists _, _. split; [done|]. split; [done|]. split.
      * intros get' w' [= <-] Hw. rewrite Hget in Hw. by simplify_eq.
      * intros [e He]. congruence.
    + eexists _, _. split; [done|]. split; [done|]. split; [|done].
      intros get' w' [= <-] Hw. congruence.
  - eexists _, _. split; [done|]. split; [done|]. split; [|done].
    intros get' w' [=].
Qed.


End ReadFromConfig.


(** ** The compute routine *)

Section Compute.

Variable serv_config : ConfigStore.
Variable null_of : string → pyvalue.
Variable m : model.

Local Abbreviation section_name := (_server_env_section_name null_of m).
Local Abbreviation read_from_config := (_server_env_read_from_config serv_config).
Local Abbreviation getitem := (record_getitem null_of m).
Local Abbreviation round := (compute_field serv_config null_of m).
Local Abbreviation compute := (_compute_server_env serv_config null_of m).

(** One round of the inner loop writes the slot of its own field and no
    other, however it ends. *)
Lemma compute_field_frame self record field_name getter_name σ r k :
  (r, k) ≠ (record, field_name) →
  cache (round self record (field_name, getter_name) σ).2 !! (r, k)
    = cache σ !! (r, k).
Proof.
  intros Hne. unfold compute_field, Py.bind.
  pose proof (section_name_state null_of m self σ) as Hσ.
  destruct (section_name self σ) as [[sec|e] σ0] eqn:Hsec; simpl in *; subst σ0;
    [|done].
  destruct self as [|this [|? ?]]; try (by apply (f_equal fst) in Hsec).
  assert (∀ (c : Py.M env pyvalue),
    cache (c σ).2 = cache σ →
    cache (match c σ with
           | (Ok a, σ') => record_setitem m record field_name a σ'
           | (Raise e, σ') => (Raise e, σ')
           end).2 !! (r, k) = cache σ !! (r, k)) as Hstep.
  { intros c Hc. destruct (c σ) as [[a|e] σ1]; simpl in *; [|by rewrite Hc].
    unfold record_setitem. destruct (_fields m !! field_name); simpl;
      [|by rewrite Hc].
    rewrite lookup_insert_ne; [by rewrite Hc | congruence]. }
  destruct (cfg_contains serv_config sec
            && cfg_section_contains serv_config sec field_name).
  - apply Hstep.
    destruct (read_from_config_returns serv_config this sec field_name
                getter_name σ) as (v & σ1 & -> & Hc & _). done.
  - apply Hstep. by rewrite record_getitem_state.
Qed.

Lemma compute_fields_frame self record items σ r k :
  (r = record → k ∉ map fst items) →
  cache (Py.for_each items (round self record) σ).2 !! (r, k)
    = cache σ !! (r, k).
Proof.
  revert σ. induction items as [|[f g] items IH]; intros σ Hk; [done|].
  rewrite for_each_cons.
  pose proof (compute_field_frame self record f g σ r k) as Hf.
  destruct (round self record (f, g) σ) as [[[]|e] σ1]; simpl in *.
  - rewrite IH.
    + apply Hf. intros [= -> ->]. apply Hk; [done | left].
    + intros Hr. specialize (Hk Hr). by apply not_elem_of_cons in Hk as [_ Hk].
  - apply Hf. intros [= -> ->]. apply Hk; [done | left].
Qed.

(** What a round that ends well has done. *)
Lemma compute_field_ok self record field_name getter_name σ σ' :
  round self record (field_name, getter_name) σ = (Ok tt, σ') →
  ∃ this sec v,
    self = [this] ∧
    section_name self σ = (Ok sec, σ) ∧
    cache σ' = <[(record, field_name) := v]> (cache σ) ∧
    if config_has serv_config sec field_name
    then (∀ get w, cfg_getattr serv_config getter_name = Some get →
                   get sec field_name = Ok w → v = w) ∧
         (lookup_raises serv_config getter_name sec field_name →
            v = PyBool false)
    else getitem record (_server_env_default_fieldname field_name) σ = (Ok v, σ).
Proof.
  unfold compute_field, config_has. intros H.
  apply bind_ok in H as (sec & σ0 & Hsec & H).
  pose proof (section_name_state null_of m self σ) as Hσ.
  rewrite Hsec in Hσ. simpl in Hσ. subst σ0.
  destruct (section_name_singleton null_of m self σ sec) as [this ->];
    [by rewrite Hsec|].
  apply bind_ok in H as (v & σ1 & Hv & Hset).
  exists this, sec, v. split; [done|]. split; [done|].
  assert (cache σ' = <[(record, field_name) := v]> (cache σ1)) as Hc.
  { unfold record_setitem in Hset.
    destruct (_fields m !! field_name); [|discriminate].
    unfold Py.modify in Hset. by simplify_eq. }
  destruct (cfg_contains serv_config sec
            && cfg_section_contains serv_config sec field_name).
  - destruct (read_from_config_returns serv_config this sec field_name
                getter_name σ) as (v' & σ1' & Hrun & Hcache & Hok & Hfail).
    rewrite Hrun in Hv. simplify_eq. rewrite Hc, Hcache.
    split; [done|]. split.
    + intros get w Hget Hw. by destruct (Hok get w Hget Hw).
    + intros Hr. by destruct (Hfail Hr).
  - pose proof (record_getitem_state null_of m record
                  (_server_env_default_fieldname field_name) σ) as Hg.
    rewrite Hv in Hg. simpl in Hg. subst σ1. done.
Qed.

(** The routine ends well on one record at a time only, as soon as a
    field is declared. *)
Lemma compute_ok_singleton self record item σ σ' :
  item ∈ _server_env_fields m →
  record ∈ self →
  compute self σ = (Ok tt, σ') →
  self = [record] ∧
  Py.for_each (_server_env_fields m) (round self record) σ = (Ok tt, σ').
Proof.
  intros Hitem Hrec. unfold _compute_server_env.
  destruct self as [|first rest]; [by apply elem_of_nil in Hrec|].
  simpl. intros H. apply bind_ok in H as ([] & σ1 & Hinner & Hrest).
  apply list_elem_of_split in Hitem as (pre & post & Hsplit).
  pose proof Hinner as Hinner'.
  rewrite Hsplit in Hinner'.
  apply for_each_split in Hinner' as (τ1 & τ2 & _ & Hround & _).
  destruct item as [f g].
  apply compute_field_ok in Hround as (this & _ & _ & Hself & _).
  simplify_eq. apply list_elem_of_singleton in Hrec as ->.
  simpl in Hrest. unfold Py.ret in Hrest. by simplify_eq.
Qed.

(** Where the loop stands when it reaches a declared field, and what the
    slot of that field holds at the end. *)
Lemma compute_reaches self record pre field_name getter_name post σ σ' :
  NoDup (map fst (_server_env_fields m)) →
  _server_env_fields m = (pre ++ (field_name, getter_name) :: post)%list →
  record ∈ self →
  compute self σ = (Ok tt, σ') →
  ∃ σ1 σ2,
    self = [record] ∧
    Py.for_each pre (round self record) σ = (Ok tt, σ1) ∧
    round self record (field_name, getter_name) σ1 = (Ok tt, σ2) ∧
    cache σ' !! (record, field_name) = cache σ2 !! (record, field_name).
Proof.
  intros Hnodup Hsplit Hrec Hrun.
  destruct (compute_ok_singleton self record (field_name, getter_name) σ σ')
    as [-> Hloop];
    [rewrite Hsplit; apply elem_of_app; right; left | done | done |].
  rewrite Hsplit in Hloop.
  apply for_each_split in Hloop as (σ1 & σ2 & Hpre & Hround & Hpost).
  exists σ1, σ2. do 3 (split; [done|]).
  pose proof (compute_fields_frame [record] record post σ2 record field_name) as Hf.
  rewrite Hpost in Hf. apply Hf. intros _.
  rewrite Hsplit, map_app in Hnodup. simpl in Hnodup.
  apply NoDup_app in Hnodup as (_ & _ & Hnodup).
  by apply NoDup_cons in Hnodup as [? _].
Qed.

(** C1: in a run of the routine that ends well, take a record of the
    batch and a declared pair (field, getter), and the section name
    computed for the record when the loop reaches that pair.  If the
    store has the section and the key, the field holds at the end the
    typed value that the declared getter returns for them, whatever the
    companion default field holds; and [False] if that getter raises. *)
Theorem config_value_takes_precedence
    (self : recordset) (record : Z)
    (pre post : list (string * string)) (field_name getter_name sec : string)
    (σ σ' : env) :
  NoDup (map fst (_server_env_fields m)) →
  _server_env_fields m = (pre ++ (field_name, getter_name) :: post)%list →
  record ∈ self →
  compute self σ = (Ok tt, σ') →
  let σ1 := (Py.for_each pre (round self record) σ).2 in
  (section_name self σ1).1 = Ok sec →
  config_has serv_config sec field_name = true →
  (∀ get v, cfg_getattr serv_config getter_name = Some get →
            get sec field_name = Ok v →
            cache σ' !! (record, field_name) = Some v) ∧
  (lookup_raises serv_config getter_name sec field_name →
     cache σ' !! (record, field_name) = Some (PyBool false)).
Proof.
  intros Hnodup Hsplit Hrec Hrun σ1 Hsec Hhas.
  destruct (compute_reaches self record pre field_name getter_name post σ σ')
    as (τ1 & τ2 & -> & Hpre & Hround & Hend); try done.
  subst σ1. rewrite Hpre in Hsec. simpl in Hsec.
  apply compute_field_ok in Hround as (this & sec' & v & _ & Hsec' & Hc & Hv).
  rewrite Hsec' in Hsec. simpl in Hsec. simplify_eq.
  rewrite Hhas in Hv. destruct Hv as [Hok Hfail].
  rewrite Hend, Hc, lookup_insert_eq.
  split.
  - intros get w Hget Hw. f_equal. by eapply Hok.
  - intros Hr. f_equal. by apply Hfail.
Qed.

(** C2: in a run of the routine that ends well, take a record of the
    batch and a declared pair (field, getter), and the section name
    computed for the record when the loop reaches that pair.  If the
    store lacks the section or the key, the companion field
    [<field>_env_default] of the record is read at that moment, and what
    it reads is, unchanged, what the field holds at the end.  When the
    companion is not itself a declared field, the routine never writes
    it: it reads the same before and after the run. *)
Theorem default_is_the_fallback
    (self : recordset) (record : Z)
    (pre post : list (string * string)) (field_name getter_name sec : string)
    (σ σ' : env) :
  NoDup (map fst (_server_env_fields m)) →
  _server_env_fields m = (pre ++ (field_name, getter_name) :: post)%list →
  record ∈ self →
  compute self σ = (Ok tt, σ') →
  let σ1 := (Py.for_each pre (round self record) σ).2 in
  let default_field := _server_env_default_fieldname field_name in
  (section_name self σ1).1 = Ok sec →
  config_has serv_config sec field_name = false →
  ∃ v,
    getitem record default_field σ1 = (Ok v, σ1) ∧
    cache σ' !! (record, field_name) = Some v ∧
    (default_field ∉ map fst (_server_env_fields m) →
       getitem record default_field σ = (Ok v, σ) ∧
       getitem record default_field σ' = (Ok v, σ')).
Proof.
  intros Hnodup Hsplit Hrec Hrun σ1 default_field Hsec Hhas.
  destruct (compute_reaches self record pre field_name getter_name post σ σ')
    as (τ1 & τ2 & -> & Hpre & Hround & Hend); try done.
  subst σ1. rewrite Hpre in Hsec |- *. simpl in Hsec |- *.
  apply compute_field_ok in Hround as (this & sec' & v & _ & Hsec' & Hc & Hv).
  rewrite Hsec' in Hsec. simpl in Hsec. simplify_eq.
  rewrite Hhas in Hv. exists v. split; [done|].
  split; [by rewrite Hend, Hc, lookup_insert_eq|].
  intros Hnot.
  destruct (compute_ok_singleton [record] record (field_name, getter_name) σ σ')
    as [_ Hloop];
    [rewrite Hsplit; apply elem_of_app; right; left | done | done |].
  assert (cache τ1 !! (record, default_field) = cache σ !! (record, default_field)) as H1.
  { pose proof (compute_fields_frame [record] record pre σ record default_field) as Hf.
    rewrite Hpre in Hf. apply Hf. intros _ Hin. apply Hnot.
    rewrite Hsplit, map_app. apply elem_of_app. by left. }
  assert (cache σ' !! (record, default_field) = cache σ !! (record, default_field)) as H2.
  { pose proof (compute_fields_frame [record] record (_server_env_fields m) σ
                  record default_field) as Hf.
    rewrite Hloop in Hf. apply Hf. by intros _. }
  subst default_field.
  unfold record_getitem, Py.gets, Py.raise in Hv |- *.
  destruct (_fields m !! _server_env_default_fieldname field_name);
    [|discriminate].
  rewrite H2, <- H1. split; congruence.
Qed.

(** C5, as the code has it: in a run of the routine that ends well, take
    a record of the batch and a declared pair (field, getter) for which
    the store has no entry.  If the companion default field holds no
    value when the loop reaches the pair, the field holds at the end
    what the host framework reads from the empty companion; the getter
    plays no part in it. *)
Theorem unset_default_reads_as_null
    (self : recordset) (record : Z)
    (pre post : list (string * string)) (field_name getter_name sec : string)
    (σ σ' : env) :
  NoDup (map fst (_server_env_fields m)) →
  _server_env_fields m = (pre ++ (field_name, getter_name) :: post)%list →
  record ∈ self →
  compute self σ = (Ok tt, σ') →
  let σ1 := (Py.for_each pre (round self record) σ).2 in
  let default_field := _server_env_default_fieldname field_name in
  (section_name self σ1).1 = Ok sec →
  config_has serv_config sec field_name = false →
  cache σ1 !! (record, default_field) = None →
  cache σ' !! (record, field_name) = Some (null_of default_field).
Proof.
  intros Hnodup Hsplit Hrec Hrun σ1 default_field Hsec Hhas Hunset.
  destruct (compute_reaches self record pre field_name getter_name post σ σ')
    as (τ1 & τ2 & -> & Hpre & Hround & Hend); try done.
  subst σ1. rewrite Hpre in Hsec, Hunset. simpl in Hsec, Hunset.
  apply compute_field_ok in Hround as (this & sec' & v & _ & Hsec' & Hc & Hv).
  rewrite Hsec' in Hsec. simpl in Hsec. simplify_eq.
  rewrite Hhas in Hv. rewrite Hend, Hc, lookup_insert_eq. f_equal.
  subst default_field.
  unfold record_getitem, Py.gets, Py.raise in Hv.
  destruct (_fields m !! _server_env_default_fieldname field_name);
    [|discriminate].
  rewrite Hunset in Hv. simpl in Hv. congruence.
Qed.

(** On a batch of two records or more the first round already raises:
    [self], not [record], is asked for its section name. *)
Lemma compute_raises_on_batches first second rest item items σ :
  _server_env_fields m = item :: items →
  compute (first :: second :: rest) σ
    = (Raise (ValueError "Expected singleton"), σ).
Proof.
  intros Hfields. unfold _compute_server_env. rewrite Hfields.
  destruct item as [f g]. reflexivity.
Qed.

End Compute.

(** The path of "Primary" comes from [[storage_backend.Primary]], not from
    the stored default [/var/one]. *)
Lemma config_value_takes_precedence_witness :
  let run := _compute_server_env Example.serv_config Example.null_of
               Example.storage_backend_ready [1%Z] Example.records in
  run.1 = Ok tt ∧
  config_has Example.serv_config "storage_backend.Primary" "directory_path" = true ∧
  cache Example.records !! (1%Z, "directory_path_env_default") = Some (PyStr "/var/one") ∧
  cache run.2 !! (1%Z, "directory_path") = Some (PyStr "/srv/primary").
Proof.
  intros run. do 3 (split; [vm_compute; reflexivity|]).
  refine (proj1 (config_value_takes_precedence Example.serv_config Example.null_of
            Example.storage_backend_ready [1%Z] 1 [] [("sftp_port", "get_int")]
            "directory_path" "get" "storage_backend.Primary"
            Example.records run.2 _ _ _ _ _ _)
            (Resolver.typed Example.sections (λ v, Ok (PyStr v)))
            (PyStr "/srv/primary") _ _).
  - apply (bool_decide_unpack _). vm_compute. exact I.
  - vm_compute. reflexivity.
  - apply list_elem_of_singleton. reflexivity.
  - vm_compute. reflexivity.
  - vm_compute. reflexivity.
  - vm_compute. reflexivity.
  - reflexivity.
  - vm_compute. reflexivity.
Defined.

(** "Secondary" has no section: its path is the stored default. *)
Lemma default_is_the_fallback_witness :
  let run := _compute_server_env Example.serv_config Example.null_of
               Example.storage_backend_ready [2%Z] Example.records in
  run.1 = Ok tt ∧
  config_has Example.serv_config "storage_backend.Secondary" "directory_path" = false ∧
  cache Example.records !! (2%Z, "directory_path_env_default") = Some (PyStr "/var/two") ∧
  cache run.2 !! (2%Z, "directory_path") = Some (PyStr "/var/two").
Proof.
  intros run. do 3 (split; [vm_compute; reflexivity|]).
  destruct (default_is_the_fallback Example.serv_config Example.null_of
              Example.storage_backend_ready [2%Z] 2 [] [("sftp_port", "get_int")]
              "directory_path" "get" "storage_backend.Secondary"
              Example.records run.2) as (v & Hread & Hend & _).
  - apply (bool_decide_unpack _). vm_compute. exact I.
  - vm_compute. reflexivity.
  - apply list_elem_of_singleton. reflexivity.
  - vm_compute. reflexivity.
  - vm_compute. reflexivity.
  - vm_compute. reflexivity.
  - vm_compute in Hread. injection Hread as <-. exact Hend.
Defined.

(** "Tertiary" has neither a section nor a stored default. *)
Lemma unset_default_reads_as_null_witness :
  let run := _compute_server_env Example.serv_config Example.null_of
               Example.storage_backend_ready [3%Z] Example.records in
  run.1 = Ok tt ∧
  cache Example.records !! (3%Z, "directory_path_env_default") = None ∧
  cache run.2 !! (3%Z, "directory_path")
    = Some (Example.null_of "directory_path_env_default").
Proof.
  intros run. do 2 (split; [vm_compute; reflexivity|]).
  refine (unset_default_reads_as_null Example.serv_config Example.null_of
            Example.storage_backend_ready [3%Z] 3 [] [("sftp_port", "get_int")]
            "directory_path" "get" "storage_backend.Tertiary"
            Example.records run.2 _ _ _ _ _ _ _).
  - apply (bool_decide_unpack _). vm_compute. exact I.
  - vm_compute. reflexivity.
  - apply list_elem_of_singleton. reflexivity.
  - vm_compute. reflexivity.
  - vm_compute. reflexivity.
  - vm_compute. reflexivity.
  - vm_compute. reflexivity.
Defined.

(** C5, as stated, fails.  The record "Tertiary" of [storage.backend] has no
    section in the store and no stored default; [directory_path] is
    declared with the getter [get].  The routine gives the field what the
    empty companion reads, [False], which is not the empty string. *)
Lemma unset_default_is_not_the_empty_string :
  let run := _compute_server_env Example.serv_config Example.null_of
               Example.storage_backend_ready [3%Z] Example.records in
  ("directory_path", "get") ∈ _server_env_fields Example.storage_backend_ready ∧
  run.1 = Ok tt ∧
  config_has Example.serv_config "storage_backend.Tertiary" "directory_path" = false ∧
  cache Example.records !! (3%Z, "directory_path_env_default") = None ∧
  cache run.2 !! (3%Z, "directory_path") = Some (PyBool false) ∧
  ¬ empty_for_getter "get" (PyBool false).
Proof.
  intros run. split; [by left|]. do 4 (split; [vm_compute; reflexivity|]).
  intros (Hget & _). by specialize (Hget eq_refl).
Qed.

(** No reading of an empty companion is the empty value of every getter
    kind: the fallback cannot follow the getter. *)
Lemma no_value_is_empty_for_every_getter (v : pyvalue) :
  ¬ (empty_for_getter "get" v ∧ empty_for_getter "get_bool" v).
Proof.
  intros [(Hget & _) (_ & Hbool & _)].
  specialize (Hget eq_refl). specialize (Hbool eq_refl). congruence.
Qed.

(** C3 fails on the code.  Records 1 and 2 are each resolved when the
    routine is called on them alone; called on the batch of the two it
    raises [ValueError] in the first round and resolves neither. *)
Theorem compute_fails_on_a_batch_of_two :
  let compute := _compute_server_env Example.serv_config Example.null_of
                   Example.storage_backend_ready in
  (compute [1%Z] Example.records).1 = Ok tt ∧
  (compute [2%Z] Example.records).1 = Ok tt ∧
  compute [1%Z; 2%Z] Example.records
    = (Raise (ValueError "Expected singleton"), Example.records).
Proof.
  intros compute. do 2 (split; [vm_compute; reflexivity|]).
  apply (compute_raises_on_batches _ _ _ 1 2 [] ("directory_path", "get")
           [("sftp_port", "get_int")]).
  vm_compute. reflexivity.
Qed.

(** ** The setup hook, step by step *)

Lemma field_set_run l upd m f :
  field_heap m !! l = Some f →
  field_set l upd m = (Ok tt, set_field_heap (<[l := upd f]>) m).
Proof.
  intros H. unfold field_set, Py.bind, field_get, Py.modify. by rewrite H.
Qed.

Lemma dict_set_run d upd m a :
  dict_heap m !! d = Some a →
  dict_set d upd m = (Ok tt, set_dict_heap (<[d := upd a]>) m).
Proof.
  intros H. unfold dict_set, Py.bind, dict_get, Py.modify. by rewrite H.
Qed.

Lemma transformed_reads_from_env f : reads_from_env (transformed f).
Proof. by repeat split. Qed.

Lemma transformed_id f : reads_from_env f → transformed f = f.
Proof.
  destruct f as [c n a co st cp sp]. intros (H1 & H2 & H3 & H4).
  simpl in *. unfold transformed. simpl. congruence.
Qed.

Lemma transform_run l m f :
  field_heap m !! l = Some f →
  _server_env_transform_field_to_read_from_env l m
    = (Ok tt, set_field_heap (<[l := transformed f]>) m).
Proof.
  intros H. unfold _server_env_transform_field_to_read_from_env, Py.bind.
  rewrite (field_set_run _ _ _ f H).
  erewrite field_set_run; [|apply lookup_insert_eq].
  erewrite field_set_run; [|apply lookup_insert_eq].
  erewrite field_set_run; [|apply lookup_insert_eq].
  destruct m. unfold set_field_heap. simpl.
  by rewrite !insert_insert_eq.
Qed.

Lemma transform_fails l m :
  field_heap m !! l = None →
  _server_env_transform_field_to_read_from_env l m
    = (Raise (SystemError "no such object"), m).
Proof.
  intros H. unfold _server_env_transform_field_to_read_from_env, Py.bind,
    field_set, Py.bind, field_get. by rewrite H.
Qed.

Lemma add_default_field_present base_field m bf l :
  field_heap m !! base_field = Some bf →
  _fields m !! _server_env_default_fieldname (f_name bf) = Some l →
  _server_env_add_default_field base_field m = (Ok tt, m).
Proof.
  intros Hbf Hl.
  unfold _server_env_add_default_field, Py.bind, field_get, fields_contains, Py.gets.
  by rewrite Hbf, Hl.
Qed.

Lemma add_default_field_creates base_field m bf args :
  field_heap m !! base_field = Some bf →
  _fields m !! _server_env_default_fieldname (f_name bf) = None →
  dict_heap m !! f_args bf = Some args →
  _server_env_add_default_field base_field m = (Ok tt, with_default_field m bf args).
Proof.
  intros Hbf Hnone Hargs. unfold _server_env_add_default_field.
  bind_step; [|unfold field_get; by rewrite Hbf].
  bind_step; [|unfold fields_contains, Py.gets; by rewrite Hnone].
  change (negb false) with true. cbv iota. unfold dict_pop, dict_update.
  bind_step; [|by apply dict_set_run].
  bind_step; [|apply dict_set_run, lookup_insert_eq].
  unfold field_new.
  bind_step;
    [|bind_step; [|unfold dict_get; simpl; by rewrite lookup_insert_eq];
      bind_step; [|reflexivity]; reflexivity].
  unfold _add_field.
  bind_step; [|apply field_set_run, lookup_insert_eq].
  unfold Py.bind, Py.modify. simpl.
  unfold with_default_field, default_field_args, set_f_name,
    set_add_field_calls, set_fields, set_field_heap, set_dict_heap. simpl.
  by rewrite !insert_insert_eq.
Qed.

Lemma add_default_field_fails base_field m bf :
  field_heap m !! base_field = Some bf →
  _fields m !! _server_env_default_fieldname (f_name bf) = None →
  dict_heap m !! f_args bf = None →
  _server_env_add_default_field base_field m
    = (Raise (SystemError "no such object"), m).
Proof.
  intros Hbf Hnone Hargs. unfold _server_env_add_default_field.
  bind_step; [|unfold field_get; by rewrite Hbf].
  bind_step; [|unfold fields_contains, Py.gets; by rewrite Hnone].
  change (negb false) with true. cbv iota. unfold dict_pop, dict_set.
  bind_stop; [done|].
  bind_stop; [done|]. unfold dict_get. by rewrite Hargs.
Qed.

(** ** What the hook keeps *)

Lemma in_defaults_blob_default_field_args args :
  in_defaults_blob (default_field_args args).
Proof.
  unfold in_defaults_blob, default_field_args.
  rewrite lookup_insert_ne by done. apply lookup_insert_eq.
Qed.

Lemma grows_refl m : grows m m.
Proof.
  split; try done; try by eauto 10.
  - exists []. split; [by rewrite app_nil_r|]. split; [constructor|].
    intros s. split; [by intros ?%elem_of_nil|].
    intros [Hnone [l Hl]]. congruence.
  - intros s l Hnone Hl. congruence.
Qed.

Lemma grows_trans m1 m2 m3 : grows m1 m2 → grows m2 m3 → grows m1 m3.
Proof.
  intros [N1 D1 F1 O1 A1 (new1 & C1 & ND1 & I1) K1]
         [N2 D2 F2 O2 A2 (new2 & C2 & ND2 & I2) K2].
  split.
  - congruence.
  - congruence.
  - eauto.
  - intros l f Hf.
    destruct (O1 l f Hf) as (f' & Hf' & ? & ? & ? & ?).
    destruct (O2 l f' Hf') as (f'' & Hf'' & ? & ? & ? & ?).
    exists f''. split; [done|]. do 3 (split; [congruence|]). tauto.
  - intros d a Ha.
    destruct (A1 d a Ha) as (a' & Ha' & ?).
    destruct (A2 d a' Ha') as (a'' & Ha'' & ?).
    exists a''. split; [done | tauto].
  - exists (new1 ++ new2)%list.
    split; [by rewrite C2, C1, app_assoc|]. split.
    + apply NoDup_app. split; [done|]. split; [|done].
      intros s Hs1 Hs2. apply I1 in Hs1 as [_ [l Hl]].
      apply I2 in Hs2 as [Hnone _]. apply F2 in Hl as Hl'.
      congruence.
    + intros s. rewrite elem_of_app, I1, I2. split.
      * intros [[Hnone [l Hl]] | [Hnone Hsome]].
        -- split; [done|]. exists l. by apply F2.
        -- split; [|done].
           destruct (_fields m1 !! s) as [l|] eqn:Hs; [|done].
           apply F1 in Hs. congruence.
      * intros [Hnone Hsome].
        destruct (_fields m2 !! s) as [l|] eqn:Hs; [left | right]; eauto.
  - intros s l Hnone Hl.
    destruct (_fields m2 !! s) as [l2|] eqn:Hs.
    + pose proof (F2 s l2 Hs) as Hl2. simplify_eq.
      destruct (K1 s l Hnone Hs) as (f & a & Hf & Hn & Ha & Hb).
      destruct (O2 l f Hf) as (f' & Hf' & Hn' & Ha' & _).
      destruct (A2 _ a Ha) as (a' & Haa & Hb').
      exists f', a'. rewrite Ha'. split; [done|]. split; [congruence|].
      split; [done | tauto].
    + eauto.
Qed.

Lemma grows_fields_named m m' : grows m m' → fields_named m → fields_named m'.
Proof.
  intros [N D F O A C K] Hwf name l Hl.
  destruct (_fields m !! name) as [l0|] eqn:Hname.
  - pose proof (F name l0 Hname). simplify_eq.
    destruct (Hwf name l Hname) as (f & Hf & Hn & [a Ha]).
    destruct (O l f Hf) as (f' & Hf' & Hn' & Ha' & _).
    destruct (A _ a Ha) as (a' & Haa & _).
    exists f'. rewrite Ha'. split; [done|]. split; [congruence | eauto].
  - destruct (K name l Hname Hl) as (f & a & Hf & Hn & Ha & _). eauto.
Qed.

Lemma grows_set_up m m' fieldname : grows m m' → set_up m fieldname → set_up m' fieldname.
Proof.
  intros [N D F O A C K] (l & f & Hl & Hf & Hr & [ld Hd]).
  destruct (O l f Hf) as (f' & Hf' & Hn & _ & _ & Hr').
  exists l, f'. rewrite Hn. split; [eauto|]. split; [done|]. split; [tauto | eauto].
Qed.

(** The transformation of a descriptor. *)
Lemma grows_transform m l f :
  field_heap m !! l = Some f →
  grows m (set_field_heap (<[l := transformed f]>) m).
Proof.
  intros Hf. split; simpl; try done.
  - intros l0 f0 Hf0. destruct (decide (l0 = l)) as [->|Hne].
    + rewrite lookup_insert_eq. simplify_eq. exists (transformed f).
      split; [done|]. do 3 (split; [done|]). intros _.
      apply transformed_reads_from_env.
    + rewrite lookup_insert_ne by done. eauto 10.
  - eauto.
  - exists []. split; [by rewrite app_nil_r|]. split; [constructor|].
    intros s. split; [by intros ?%elem_of_nil|].
    intros [Hnone [l0 Hl0]]. congruence.
  - intros s l0 Hnone Hl0. congruence.
Qed.

(** The creation of a companion field. *)
Lemma grows_with_default_field m l bf args :
  field_heap m !! l = Some bf →
  _fields m !! _server_env_default_fieldname (f_name bf) = None →
  dict_heap m !! f_args bf = Some args →
  grows m (with_default_field m bf args).
Proof.
  intros Hbf Hnone Hargs.
  set (dicts := <[f_args bf := default_field_args args]> (dict_heap m)).
  assert (field_heap m !! fresh (dom (field_heap m)) = None) as Hfresh.
  { apply not_elem_of_dom, is_fresh. }
  assert (dicts !! fresh (dom dicts) = None) as Hfreshd.
  { apply not_elem_of_dom, is_fresh. }
  split; unfold with_default_field; fold dicts; simpl; try done.
  - intros k l0 Hk. rewrite lookup_insert_ne; [done | congruence].
  - intros l0 f0 Hf0. rewrite lookup_insert_ne by congruence. eauto 10.
  - intros d a Ha. destruct (decide (d = f_args bf)) as [->|Hne].
    + exists (default_field_args args). split.
      * rewrite lookup_insert_ne; [apply lookup_insert_eq|].
        intros Heq. rewrite Heq in Hfreshd. unfold dicts in Hfreshd.
        by rewrite lookup_insert_eq in Hfreshd.
      * intros _. apply in_defaults_blob_default_field_args.
    + exists a. split; [|done].
      assert (dicts !! d = Some a) as Hd.
      { unfold dicts. by rewrite lookup_insert_ne. }
      rewrite lookup_insert_ne; [done | congruence].
  - exists [_server_env_default_fieldname (f_name bf)].
    split; [done|]. split; [apply NoDup_singleton|].
    intros s. rewrite list_elem_of_singleton. split.
    + intros ->. split; [done|]. rewrite lookup_insert_eq. eauto.
    + intros [Hs [l0 Hl0]].
      destruct (decide (s = _server_env_default_fieldname (f_name bf))); [done|].
      rewrite lookup_insert_ne in Hl0 by done. congruence.
  - intros s l0 Hs Hl0.
    destruct (decide (s = _server_env_default_fieldname (f_name bf))) as [->|Hne].
    + rewrite lookup_insert_eq in Hl0. simplify_eq.
      eexists _, _. rewrite lookup_insert_eq. split; [done|]. simpl.
      split; [done|]. rewrite lookup_insert_eq. split; [done|].
      apply in_defaults_blob_default_field_args.
    + rewrite lookup_insert_ne in Hl0 by done. congruence.
Qed.

(** ** One round of the setup loop *)

(** Every way a round can go. *)
Lemma setup_field_run fieldname m :
  match _fields m !! fieldname with
  | None => setup_field fieldname m = (Raise (KeyError fieldname), m)
  | Some l =>
      match field_heap m !! l with
      | None => setup_field fieldname m = (Raise (SystemError "no such object"), m)
      | Some f =>
          let m1 := set_field_heap (<[l := transformed f]>) m in
          match _fields m !! _server_env_default_fieldname (f_name f) with
          | Some _ => setup_field fieldname m = (Ok tt, m1)
          | None =>
              match dict_heap m !! f_args f with
              | Some args =>
                  setup_field fieldname m
                    = (Ok tt, with_default_field m1 (transformed f) args)
              | None =>
                  setup_field fieldname m
                    = (Raise (SystemError "no such object"), m1)
              end
          end
      end
  end.
Proof.
  unfold setup_field.
  destruct (_fields m !! fieldname) as [l|] eqn:Hl.
  2: { bind_stop; [done|]. unfold fields_getitem. by rewrite Hl. }
  destruct (field_heap m !! l) as [f|] eqn:Hf.
  2: { bind_step; [|unfold fields_getitem; by rewrite Hl].
       bind_stop; [done|]. by apply transform_fails. }
  assert (field_heap (set_field_heap (<[l := transformed f]>) m) !! l
          = Some (transformed f)) as Hf1 by apply lookup_insert_eq.
  destruct (_fields m !! _server_env_default_fieldname (f_name f)) as [ld|] eqn:Hd.
  { bind_step; [|unfold fields_getitem; by rewrite Hl].
    bind_step; [|by apply transform_run].
    by apply (add_default_field_present _ _ (transformed f) ld). }
  destruct (dict_heap m !! f_args f) as [args|] eqn:Ha.
  - bind_step; [|unfold fields_getitem; by rewrite Hl].
    bind_step; [|by apply transform_run].
    by apply add_default_field_creates.
  - bind_step; [|unfold fields_getitem; by rewrite Hl].
    bind_step; [|by apply transform_run].
    by apply (add_default_field_fails _ _ (transformed f)).
Qed.

(** A round that ends well. *)
Lemma setup_field_ok fieldname m m' :
  setup_field fieldname m = (Ok tt, m') →
  grows m m' ∧
  set_up m' fieldname ∧
  ∀ s, _fields m !! s = None → is_Some (_fields m' !! s) →
       ∃ l f, _fields m !! fieldname = Some l ∧ field_heap m !! l = Some f ∧
              s = _server_env_default_fieldname (f_name f).
Proof.
  intros Hrun. pose proof (setup_field_run fieldname m) as H.
  destruct (_fields m !! fieldname) as [l|] eqn:Hl; [|congruence].
  destruct (field_heap m !! l) as [f|] eqn:Hf; [|congruence].
  pose proof (grows_transform m l f Hf) as G1.
  simpl in H.
  destruct (_fields m !! _server_env_default_fieldname (f_name f)) as [ld|] eqn:Hd.
  - rewrite H in Hrun. simplify_eq. split; [done|]. split.
    + exists l, (transformed f). split; [done|].
      split; [apply lookup_insert_eq|].
      split; [apply transformed_reads_from_env | by eexists].
    + intros s Hs [l0 Hl0]. simpl in Hl0. congruence.
  - destruct (dict_heap m !! f_args f) as [args|] eqn:Ha; [|congruence].
    rewrite H in Hrun. simplify_eq.
    set (m1 := set_field_heap (<[l := transformed f]>) m) in *.
    assert (grows m1 (with_default_field m1 (transformed f) args)) as G2.
    { apply (grows_with_default_field m1 l); [apply lookup_insert_eq | done | done]. }
    split; [by eapply grows_trans|]. split.
    + destruct (grows_objects _ _ G2 l (transformed f)) as (f' & Hf' & Hn & _ & _ & Hr);
        [apply lookup_insert_eq|].
      exists l, f'. split; [by apply (grows_fields _ _ G2)|]. split; [done|].
      split; [apply Hr, transformed_reads_from_env|].
      rewrite Hn. simpl. rewrite lookup_insert_eq. by eexists.
    + intros s Hs [l0 Hl0]. exists l, f. split; [done|]. split; [done|].
      simpl in Hl0.
      destruct (decide (s = _server_env_default_fieldname (f_name f))); [done|].
      rewrite lookup_insert_ne in Hl0 by done. congruence.
Qed.

(** Under the framework's invariant a round fails on a missing field
    only. *)
Lemma setup_field_raises fieldname m e m' :
  fields_named m →
  setup_field fieldname m = (Raise e, m') →
  e = KeyError fieldname ∧ _fields m !! fieldname = None.
Proof.
  intros Hwf Hrun. pose proof (setup_field_run fieldname m) as H.
  destruct (_fields m !! fieldname) as [l|] eqn:Hl; [|split; congruence].
  destruct (Hwf fieldname l Hl) as (f & Hf & _ & [args Ha]).
  rewrite Hf in H. simpl in H. rewrite Ha in H.
  destruct (_fields m !! _server_env_default_fieldname (f_name f)); congruence.
Qed.

(** A round on a field that is set up changes nothing. *)
Lemma setup_field_again fieldname m :
  set_up m fieldname → setup_field fieldname m = (Ok tt, m).
Proof.
  intros (l & f & Hl & Hf & Hr & [ld Hd]).
  pose proof (setup_field_run fieldname m) as H.
  rewrite Hl, Hf in H. simpl in H. rewrite Hd in H. rewrite H.
  rewrite (transformed_id f Hr). unfold set_field_heap.
  rewrite insert_id by done. by destruct m.
Qed.

(** ** The setup loop *)

Lemma setup_loop_ok fieldnames m m' :
  Py.for_each fieldnames setup_field m = (Ok tt, m') →
  grows m m' ∧ ∀ fieldname, fieldname ∈ fieldnames → set_up m' fieldname.
Proof.
  revert m. induction fieldnames as [|g rest IH]; intros m Hrun.
  - simpl in Hrun. unfold Py.ret in Hrun. simplify_eq.
    split; [apply grows_refl|]. by intros ? ?%elem_of_nil.
  - rewrite for_each_cons in Hrun.
    destruct (setup_field g m) as [[[]|e] m1] eqn:Hg; [|discriminate].
    apply setup_field_ok in Hg as (G1 & Hset & _).
    apply IH in Hrun as (G2 & Hrest).
    split; [by eapply grows_trans|].
    intros fieldname [->|Hin]%elem_of_cons; [by eapply grows_set_up | eauto].
Qed.

Lemma setup_loop_again fieldnames m :
  (∀ fieldname, fieldname ∈ fieldnames → set_up m fieldname) →
  Py.for_each fieldnames setup_field m = (Ok tt, m).
Proof.
  induction fieldnames as [|g rest IH]; intros Hall; [done|].
  rewrite for_each_cons, setup_field_again by (apply Hall; left).
  apply IH. intros fieldname Hin. apply Hall. by right.
Qed.

Lemma setup_base_unfold m :
  _setup_base m = Py.for_each (map fst (_server_env_fields m)) setup_field m.
Proof. reflexivity. Qed.

(** A run of the hook that ends well leaves every declared field set up,
    and a further run finds nothing to do. *)
Lemma setup_base_ok m m1 :
  _setup_base m = (Ok tt, m1) →
  grows m m1 ∧
  (∀ fieldname, fieldname ∈ map fst (_server_env_fields m) → set_up m1 fieldname) ∧
  _setup_base m1 = (Ok tt, m1).
Proof.
  rewrite setup_base_unfold. intros Hrun.
  apply setup_loop_ok in Hrun as [G Hall]. split; [done|]. split; [done|].
  rewrite setup_base_unfold, (grows_declared _ _ G). by apply setup_loop_again.
Qed.

Lemma setup_runs_again n m1 :
  _setup_base m1 = (Ok tt, m1) → setup_runs n m1 = (Ok tt, m1).
Proof.
  intros H. unfold setup_runs. induction n as [|n IH]; [done|].
  simpl replicate. by rewrite for_each_cons, H.
Qed.

(** The loop stops at the first declared name without a field, unless an
    earlier round has created that field as a companion. *)
Lemma setup_loop_raises pre fieldname post m :
  fields_named m →
  _fields m !! fieldname = None →
  (∀ g, g ∈ pre → _server_env_default_fieldname g ≠ fieldname) →
  ∃ k, k ∈ (pre ++ fieldname :: post)%list ∧ _fields m !! k = None ∧
       (Py.for_each (pre ++ fieldname :: post)%list setup_field m).1
         = Raise (KeyError k).
Proof.
  revert m. induction pre as [|g pre IH]; intros m Hwf Hnone Hpre.
  - exists fieldname. split; [left|]. split; [done|].
    simpl app. rewrite for_each_cons.
    pose proof (setup_field_run fieldname m) as H. rewrite Hnone in H.
    by rewrite H.
  - simpl app. rewrite for_each_cons.
    destruct (setup_field g m) as [[[]|e] m1] eqn:Hg.
    + apply setup_field_ok in Hg as (G & _ & Hnew).
      destruct (IH m1) as (k & Hk & Hk1 & Hrun).
      * by eapply grows_fields_named.
      * destruct (_fields m1 !! fieldname) as [l1|] eqn:H1; [|done].
        destruct (Hnew fieldname Hnone) as (l & f & Hl & Hf & Heq); [by eexists|].
        destruct (Hwf g l Hl) as (f' & Hf' & Hn & _). simplify_eq.
        exfalso. eapply Hpre; [left | done].
      * intros g' Hg'. apply Hpre. by right.
      * exists k. split; [by right|]. split; [|done].
        destruct (_fields m !! k) as [l|] eqn:Hl; [|done].
        apply (grows_fields _ _ G) in Hl. congruence.
    + apply setup_field_raises in Hg as [-> Hg]; [|done].
      exists g. split; [left|]. by split.
Qed.

(** ** The setup hook *)

(** C10: when the companion is not registered yet,
    [_server_env_add_default_field] returns with the [args] dictionary of
    the original descriptor, the same object as before, changed in place:
    ["_sequence"] is gone, ["sparse"] is ["server_env_defaults"],
    ["automatic"] is [True], the other keys are as they were.  The
    companion is a new descriptor of the same class whose [args] is
    another dictionary with these same contents. *)
Theorem add_default_field_mutates_base_args
    (m : model) (base_field : loc) (bf : field) (args : gmap string pyvalue) :
  field_heap m !! base_field = Some bf →
  dict_heap m !! f_args bf = Some args →
  _fields m !! _server_env_default_fieldname (f_name bf) = None →
  ∃ m' args',
    _server_env_add_default_field base_field m = (Ok tt, m') ∧
    field_heap m' !! base_field = Some bf ∧
    dict_heap m' !! f_args bf = Some args' ∧
    args' !! "_sequence" = None ∧
    args' !! "sparse" = Some (PyStr "server_env_defaults") ∧
    args' !! "automatic" = Some (PyBool true) ∧
    (∀ key, key ∉ ["_sequence"; "sparse"; "automatic"] → args' !! key = args !! key) ∧
    ∃ l default_field,
      _fields m' !! _server_env_default_fieldname (f_name bf) = Some l ∧
      field_heap m' !! l = Some default_field ∧
      l ≠ base_field ∧
      f_class default_field = f_class bf ∧
      f_args default_field ≠ f_args bf ∧
      dict_heap m' !! f_args default_field = Some args'.
Proof.
  intros Hbf Hargs Hnone.
  exists (with_default_field m bf args), (default_field_args args).
  split; [by apply add_default_field_creates|].
  set (dicts := <[f_args bf := default_field_args args]> (dict_heap m)).
  assert (fresh (dom (field_heap m)) ≠ base_field) as Hfresh.
  { intros Heq. apply (is_fresh (dom (field_heap m))). rewrite Heq.
    apply elem_of_dom. by eexists. }
  assert (fresh (dom dicts) ≠ f_args bf) as Hfreshd.
  { intros Heq. apply (is_fresh (dom dicts)). rewrite Heq.
    apply elem_of_dom. unfold dicts. rewrite lookup_insert_eq. by eexists. }
  unfold with_default_field. fold dicts. simpl.
  split; [by rewrite lookup_insert_ne|].
  split; [rewrite lookup_insert_ne by done; apply lookup_insert_eq|].
  unfold default_field_args at 1 2 3 4.
  split; [rewrite !lookup_insert_ne by done; apply lookup_delete_eq|].
  split; [rewrite lookup_insert_ne by done; apply lookup_insert_eq|].
  split; [apply lookup_insert_eq|].
  split.
  { intros key Hkey.
    rewrite !lookup_insert_ne, lookup_delete_ne; [done | | |];
      intros <-; apply Hkey; repeat constructor. }
  eexists _, _. split; [apply lookup_insert_eq|].
  split; [apply lookup_insert_eq|]. simpl.
  do 3 (split; [done|]). apply lookup_insert_eq.
Qed.

(** C6: when a run of the setup hook ends well, running it twice or more
    in a row ends well too and leaves the type as the single run does.
    For every declared field the companion [<field>_env_default] is then
    registered, and [_add_field] was called for it once over all the runs
    if it was not registered before, and never if it was; no name was
    added twice. *)
Theorem setup_is_idempotent (m m1 : model) (n : nat) :
  fields_named m →
  _setup_base m = (Ok tt, m1) →
  setup_runs (2 + n) m = (Ok tt, m1) ∧
  ∃ new,
    add_field_calls m1 = (add_field_calls m ++ new)%list ∧
    NoDup new ∧
    ∀ fieldname, fieldname ∈ map fst (_server_env_fields m) →
      let default_field := _server_env_default_fieldname fieldname in
      is_Some (_fields m1 !! default_field) ∧
      (_fields m !! default_field = None → default_field ∈ new) ∧
      (is_Some (_fields m !! default_field) → default_field ∉ new).
Proof.
  intros Hwf Hrun.
  destruct (setup_base_ok m m1 Hrun) as (G & Hall & Hagain).
  split.
  { unfold setup_runs. simpl replicate. rewrite for_each_cons, Hrun.
    by apply (setup_runs_again (S n)). }
  destruct (grows_calls _ _ G) as (new & Hcalls & Hnodup & Hnew).
  exists new. split; [done|]. split; [done|].
  intros fieldname Hin default_field.
  destruct (Hall fieldname Hin) as (l & f & Hl & Hf & _ & Hd).
  destruct (grows_fields_named _ _ G Hwf fieldname l Hl) as (f' & Hf' & Hn & _).
  rewrite Hf in Hf'. injection Hf' as <-. rewrite Hn in Hd.
  fold default_field in Hd.
  split; [done|]. split.
  - intros Hnone. by apply Hnew.
  - intros [l0 Hl0] [Hnone _]%Hnew. congruence.
Qed.

(** C9, as the code has it: if a declared name has no field on the type
    and is not the companion name [<g>_env_default] of a name declared
    before it, the setup hook raises [KeyError] for a declared name
    without a field; nothing catches it. *)
Theorem setup_raises_on_unknown_field
    (m : model) (pre post : list string) (fieldname : string) :
  fields_named m →
  map fst (_server_env_fields m) = (pre ++ fieldname :: post)%list →
  _fields m !! fieldname = None →
  (∀ g, g ∈ pre → _server_env_default_fieldname g ≠ fieldname) →
  ∃ k, k ∈ map fst (_server_env_fields m) ∧
       _fields m !! k = None ∧
       (_setup_base m).1 = Raise (KeyError k).
Proof.
  intros Hwf Hsplit Hnone Hpre.
  rewrite setup_base_unfold, Hsplit.
  by apply setup_loop_raises.
Qed.

(** ** The hook on the example types *)

Lemma fields_named_storage_backend : fields_named Example.storage_backend.
Proof.
  unfold fields_named. change (map_Forall (λ name l,
    ∃ f, field_heap Example.storage_backend !! l = Some f ∧ f_name f = name ∧
         is_Some (dict_heap Example.storage_backend !! f_args f))
    (_fields Example.storage_backend)).
  simpl _fields.
  repeat (apply map_Forall_insert_2;
    [eexists; split; [vm_compute; reflexivity|]; split;
       [reflexivity | eexists; vm_compute; reflexivity] |]).
  apply map_Forall_empty.
Qed.

Lemma fields_named_misdeclared_backend : fields_named Example.misdeclared_backend.
Proof.
  unfold fields_named. change (map_Forall (λ name l,
    ∃ f, field_heap Example.misdeclared_backend !! l = Some f ∧ f_name f = name ∧
         is_Some (dict_heap Example.misdeclared_backend !! f_args f))
    (_fields Example.misdeclared_backend)).
  simpl _fields.
  repeat (apply map_Forall_insert_2;
    [eexists; split; [vm_compute; reflexivity|]; split;
       [reflexivity | eexists; vm_compute; reflexivity] |]).
  apply map_Forall_empty.
Qed.

(** The companion of [directory_path] on [storage.backend]. *)
Lemma add_default_field_mutates_base_args_witness :
  let m := Example.storage_backend in
  let base_field := Field "Char" "directory_path" 12%positive
                      None (Some (PyBool true)) (Some (PyBool true)) None in
  let args' : gmap string pyvalue :=
    {[ "string" := PyStr "Path"; "sparse" := PyStr "server_env_defaults";
       "automatic" := PyBool true ]} in
  field_heap m !! 2%positive = Some base_field ∧
  dict_heap m !! 12%positive
    = Some {[ "_sequence" := PyInt 8; "string" := PyStr "Path" ]} ∧
  _fields m !! "directory_path_env_default" = None ∧
  ∃ m', _server_env_add_default_field 2%positive m = (Ok tt, m') ∧
        field_heap m' !! 2%positive = Some base_field ∧
        dict_heap m' !! 12%positive = Some args'.
Proof.
  intros m base_field args'.
  assert (field_heap m !! 2%positive = Some base_field) as H1
    by (vm_compute; reflexivity).
  assert (dict_heap m !! f_args base_field
          = Some {[ "_sequence" := PyInt 8; "string" := PyStr "Path" ]}) as H2
    by (vm_compute; reflexivity).
  assert (_fields m !! _server_env_default_fieldname (f_name base_field) = None) as H3
    by (vm_compute; reflexivity).
  do 3 (split; [assumption|]).
  destruct (add_default_field_mutates_base_args m 2%positive base_field _ H1 H2 H3)
    as (m' & a' & Hrun & Hbf & Ha & _).
  exists m'. split; [exact Hrun|]. split; [exact Hbf|].
  rewrite (add_default_field_creates _ _ _ _ H1 H3 H2) in Hrun.
  injection Hrun as <-. vm_compute. reflexivity.
Defined.

(** Two runs of the hook on [storage.backend] leave the type of one run,
    with one call of [_add_field] per declared field. *)
Lemma setup_is_idempotent_witness :
  _setup_base Example.storage_backend = (Ok tt, Example.storage_backend_ready) ∧
  setup_runs 2 Example.storage_backend = (Ok tt, Example.storage_backend_ready) ∧
  add_field_calls Example.storage_backend_ready
    = ["directory_path_env_default"; "sftp_port_env_default"].
Proof.
  assert (_setup_base Example.storage_backend
          = (Ok tt, Example.storage_backend_ready)) as Hrun
    by (vm_compute; reflexivity).
  split; [exact Hrun|].
  split; [|vm_compute; reflexivity].
  exact (proj1 (setup_is_idempotent Example.storage_backend
                  Example.storage_backend_ready 0
                  fields_named_storage_backend Hrun)).
Defined.


(** The hook on a type that declares [sftp_login] without having it. *)
Lemma setup_raises_on_unknown_field_witness :
  map fst (_server_env_fields Example.misdeclared_backend)
    = ["directory_path"; "sftp_login"] ∧
  _fields Example.misdeclared_backend !! "sftp_login" = None ∧
  (_setup_base Example.misdeclared_backend).1 = Raise (KeyError "sftp_login").
Proof.
  split; [reflexivity|]. split; [reflexivity|].
  destruct (setup_raises_on_unknown_field Example.misdeclared_backend
              ["directory_path"] [] "sftp_login"
              fields_named_misdeclared_backend eq_refl eq_refl)
    as (k & _ & _ & Hrun).
  { intros g ->%list_elem_of_singleton. discriminate. }
  rewrite Hrun. f_equal.
  vm_compute in Hrun. congruence.
Defined.

(** C9, as stated, fails.  The type [Example.chained_backend] declares
    [directory_path] and then [directory_path_env_default], which is no
    field of the type.  The first round creates the companion of
    [directory_path] under that very name, the second round finds it, and
    the hook ends well. *)
Lemma declared_companion_name_is_accepted :
  map fst (_server_env_fields Example.chained_backend)
    = ["directory_path"; "directory_path_env_default"] ∧
  _fields Example.chained_backend !! "directory_path_env_default" = None ∧
  (_setup_base Example.chained_backend).1 = Ok tt.
Proof.
  split; [reflexivity|]. split; [reflexivity|]. vm_compute. reflexivity.
Qed.

(** ** From setup to compute *)

Section Completion.

Variable serv_config : ConfigStore.
Variable null_of : string → pyvalue.
Variable m : model.

Local Abbreviation round := (compute_field serv_config null_of m).
Local Abbreviation compute := (_compute_server_env serv_config null_of m).

Lemma record_getattr_same_slot record attr σ σ' v :
  cache σ' !! (record, attr) = cache σ !! (record, attr) →
  record_getattr null_of m record attr σ = (Ok v, σ) →
  record_getattr null_of m record attr σ' = (Ok v, σ').
Proof.
  unfold record_getattr, Py.gets, Py.raise. intros Hc.
  destruct (_fields m !! attr); [|discriminate]. rewrite Hc. congruence.
Qed.

(** A round on one record ends well when the field and its companion
    are fields of the type and the record has a display name. *)
Lemma compute_field_completes record field_name getter_name name σ :
  is_Some (_fields m !! field_name) →
  is_Some (_fields m !! _server_env_default_fieldname field_name) →
  record_getattr null_of m record "name" σ = (Ok (PyStr name), σ) →
  (round [record] record (field_name, getter_name) σ).1 = Ok tt.
Proof.
  intros [l Hl] [ld Hld] Hname. unfold compute_field.
  pose proof (section_name_run null_of m record name σ) as Hsec.
rewrite Hname in Hsec. specialize (Hsec eq_refl).
  rewrite (bind_run _ _ _ _ _ Hsec).
  assert (∀ v σ1, (record_setitem m record field_name v σ1).1 = Ok tt) as Hset.
  { intros v σ1. unfold record_setitem. by rewrite Hl. }
  match goal with |- context [if ?b then _ else _] => destruct b end.
  - destruct (read_from_config_returns serv_config record
                (str_replace "." "_" (_name m) ++ "." ++ name)
                field_name getter_name σ) as (v & σ1 & Hrun & _).
    rewrite (bind_run _ _ _ _ _ Hrun). apply Hset.
  - unfold record_getitem at 1. rewrite Hld.
    unfold Py.bind, Py.gets. apply Hset.
Qed.

(** The routine ends well on one record when every declared field and
    its companion are fields of the type, the record has a display name,
    and the display name is not itself a declared field. *)
Lemma compute_completes record name σ :
  (∀ item, item ∈ _server_env_fields m →
     is_Some (_fields m !! item.1) ∧
     is_Some (_fields m !! _server_env_default_fieldname item.1)) →
  "name" ∉ map fst (_server_env_fields m) →
  record_getattr null_of m record "name" σ = (Ok (PyStr name), σ) →
  (compute [record] σ).1 = Ok tt.
Proof.
  unfold _compute_server_env. rewrite for_each_cons.
  generalize (_server_env_fields m) as items.
  intros items. revert σ.
  induction items as [|[f g] items IH]; intros σ Hall Hnot Hname; [done|].
  rewrite for_each_cons.
  pose proof (compute_field_completes record f g name σ) as Hround.
  pose proof (compute_field_frame serv_config null_of m [record] record f g σ
                record "name") as Hframe.
  destruct (round [record] record (f, g) σ) as [[[]|e] σ1];
    [|simpl in Hround; destruct (Hall (f, g)) as [? ?]; [left|];
      by specialize (Hround ltac:(done) ltac:(done) Hname)].
  simpl in Hframe.
  apply IH.
  - intros item Hin. apply Hall. by right.
  - intros Hin. apply Hnot. simpl. by right.
  - apply (record_getattr_same_slot record "name" σ); [|done].
    apply Hframe. intros [= <-]. apply Hnot. simpl. left.
Qed.

End Completion.

(** X8: setup, then compute.  After a run of the setup hook that ends
    well on a type that does not declare [name], the compute routine ends
    well on every single record with a display name, however the store and
    the cache are. *)
Lemma compute_completes_after_setup
    (serv_config : ConfigStore) (null_of : string → pyvalue)
    (m m1 : model) (record : Z) (name : string) (σ : env) :
  fields_named m →
  _setup_base m = (Ok tt, m1) →
  "name" ∉ map fst (_server_env_fields m) →
  record_getattr null_of m1 record "name" σ = (Ok (PyStr name), σ) →
  (_compute_server_env serv_config null_of m1 [record] σ).1 = Ok tt.
Proof.
  intros Hwf Hrun Hnot Hname.
  destruct (setup_base_ok m m1 Hrun) as (G & Hall & _).
  pose proof (grows_fields_named _ _ G Hwf) as Hwf1.
  apply (compute_completes serv_config null_of m1 record name); [| |done].
  - rewrite (grows_declared _ _ G). intros [f g] Hin. simpl.
    destruct (Hall f) as (l & fo & Hl & Hf & _ & Hd).
    { apply list_elem_of_fmap. by exists (f, g). }
    destruct (Hwf1 f l Hl) as (fo' & Hf' & Hn & _).
    rewrite Hf in Hf'. injection Hf' as <-. rewrite Hn in Hd.
    split; [by eexists | done].
  - by rewrite (grows_declared _ _ G).
Qed.

(** * Further properties of the compute routine *)

Section ComputeEdges.

Variable serv_config : ConfigStore.
Variable null_of : string → pyvalue.
Variable m : model.

Local Abbreviation section_name := (_server_env_section_name null_of m).
Local Abbreviation read_from_config := (_server_env_read_from_config serv_config).
Local Abbreviation getitem := (record_getitem null_of m).
Local Abbreviation round := (compute_field serv_config null_of m).
Local Abbreviation compute := (_compute_server_env serv_config null_of m).

(** X1: with no record in the batch, or no field declared (the mixin's own
    [_server_env_fields] is empty), the routine returns on a batch of any
    size and leaves the cache and the log as they are. *)
Theorem compute_nothing_to_do (self : recordset) (σ : env) :
  self = [] ∨ _server_env_fields m = [] →
  compute self σ = (Ok tt, σ).
Proof.
  unfold _compute_server_env. intros [-> | ->]; [done|].
  induction self as [|record self IH]; [done|].
  rewrite for_each_cons. exact IH.
Qed.

(** X2: on every batch of two records or more, as soon as one field is
    declared, the routine raises [ValueError] and leaves the cache and the
    log as they are. *)
Theorem compute_raises_on_every_batch (self : recordset) (σ : env) :
  (2 ≤ List.length self)%nat →
  _server_env_fields m ≠ [] →
  compute self σ = (Raise (ValueError "Expected singleton"), σ).
Proof.
  intros Hlen Hfields.
  destruct self as [|first [|second rest]]; simpl in Hlen; [lia | lia |].
  destruct (_server_env_fields m) as [|[f g] items] eqn:Hitems; [done|].
  unfold _compute_server_env. rewrite Hitems. reflexivity.
Qed.

(** X3: the section name needs the display name: on one record, with a
    field declared, the routine raises [AttributeError] when the type has
    no field [name], and [TypeError] when [name] reads as anything but a
    string (an empty name reads [False]); it writes nothing. *)
Theorem compute_needs_a_display_name (record : Z) (σ : env) :
  _server_env_fields m ≠ [] →
  match _fields m !! "name" with
  | None => compute [record] σ = (Raise (AttributeError "name"), σ)
  | Some _ =>
      ∀ v, record_getattr null_of m record "name" σ = (Ok v, σ) →
           (∀ s, v ≠ PyStr s) →
           compute [record] σ
             = (Raise (TypeError "sequence item: expected str instance"), σ)
  end.
Proof.
  intros Hfields.
  destruct (_server_env_fields m) as [|[f g] items] eqn:Hitems; [done|].
  unfold _compute_server_env. rewrite Hitems.
  rewrite for_each_cons, for_each_cons.
  unfold compute_field, _server_env_section_name, ensure_one.
  destruct (_fields m !! "name") as [l|] eqn:Hname.
  - intros v Hv Hnot.
    assert (record_getattr null_of m record "name" σ = (Ok v, σ)) as Hv' by done.
    unfold Py.bind at 1 2 3. unfold Py.ret at 1.
    rewrite Hv'. unfold Py.lift, str_join. simpl.
    destruct v as [|b|z|s]; try done. by destruct (Hnot s).
  - unfold Py.bind at 1 2 3. unfold Py.ret at 1.
    unfold record_getattr. rewrite Hname. reflexivity.
Qed.

(** X4: when the getter is an attribute of the store and returns a value,
    the helper called on one record returns that value and writes neither
    the cache nor the log. *)
Theorem read_from_config_returns_the_value
    (record : Z) (section field getter : string)
    (get : string → string → result pyvalue) (v : pyvalue) (σ : env) :
  cfg_getattr serv_config getter = Some get →
  get section field = Ok v →
  read_from_config [record] section field getter σ = (Ok v, σ).
Proof.
  intros Hget Hv.
  destruct (read_from_config_returns serv_config record section field getter σ)
    as (w & σ' & Hrun & _ & Hok & _).
  destruct (Hok get v Hget Hv) as [-> ->]. exact Hrun.
Qed.

(** X5: [ensure_one] stands before the [try]: on a recordset that is not
    one record the helper raises [ValueError], whatever the store holds,
    and logs nothing. *)
Theorem read_from_config_needs_one_record
    (self : recordset) (section field getter : string) (σ : env) :
  List.length self ≠ 1 →
  read_from_config self section field getter σ
    = (Raise (ValueError "Expected singleton"), σ).
Proof.
  intros Hlen. unfold _server_env_read_from_config, ensure_one.
  destruct self as [|first [|second rest]]; simpl in Hlen; [done | lia | done].
Qed.

End ComputeEdges.

Section ComputeFrame.

Variable serv_config : ConfigStore.
Variable null_of : string → pyvalue.
Variable m : model.

Local Abbreviation section_name := (_server_env_section_name null_of m).
Local Abbreviation read_from_config := (_server_env_read_from_config serv_config).
Local Abbreviation getitem := (record_getitem null_of m).
Local Abbreviation round := (compute_field serv_config null_of m).
Local Abbreviation compute := (_compute_server_env serv_config null_of m).

Lemma read_from_config_log self section field getter σ :
  log σ `prefix_of` log (read_from_config self section field getter σ).2.
Proof.
  unfold _server_env_read_from_config, Py.bind, ensure_one, Py.ret,
    Py.try_except, Py.lift, logger_exception, Py.modify, Py.raise.
  destruct self as [|this [|? ?]]; simpl; try done.
  destruct (cfg_getattr serv_config getter) as [get|]; simpl.
  - destruct (get section field); simpl; [done | by apply prefix_app_r].
  - by apply prefix_app_r.
Qed.

(** A round only adds to the log. *)
Lemma compute_field_log self record item σ :
  log σ `prefix_of` log (round self record item σ).2.
Proof.
  destruct item as [f g]. unfold compute_field, Py.bind.
  pose proof (section_name_state null_of m self σ) as Hσ.
  destruct (section_name self σ) as [[sec|e] σ0] eqn:Hsec; simpl in *; subst σ0;
    [|done].
  assert (∀ (c : Py.M env pyvalue),
    log σ `prefix_of` log (c σ).2 →
    log σ `prefix_of`
      log (match c σ with
           | (Ok a, σ') => record_setitem m record f a σ'
           | (Raise e, σ') => (Raise e, σ')
           end).2) as Hstep.
  { intros c Hc. destruct (c σ) as [[a|e] σ1]; simpl in *; [|done].
    unfold record_setitem. by destruct (_fields m !! f). }
  destruct (cfg_contains serv_config sec
            && cfg_section_contains serv_config sec f).
  - apply Hstep, read_from_config_log.
  - apply Hstep. by rewrite record_getitem_state.
Qed.

Lemma compute_fields_log self record items σ :
  log σ `prefix_of` log (Py.for_each items (round self record) σ).2.
Proof.
  revert σ. induction items as [|item items IH]; intros σ; [done|].
  rewrite for_each_cons.
  pose proof (compute_field_log self record item σ) as Hf.
  destruct (round self record item σ) as [[[]|e] σ1]; simpl in *; [|done].
  etrans; [exact Hf | apply IH].
Qed.

(** The outer loop, for any list of records. *)
Lemma compute_records_frame self records σ r k :
  (r ∈ records → k ∉ map fst (_server_env_fields m)) →
  cache (Py.for_each records (λ record,
           Py.for_each (_server_env_fields m) (round self record)) σ).2 !! (r, k)
    = cache σ !! (r, k).
Proof.
  revert σ. induction records as [|record records IH]; intros σ Hk; [done|].
  rewrite for_each_cons.
  pose proof (compute_fields_frame serv_config null_of m self record
                (_server_env_fields m) σ r k) as Hf.
  destruct (Py.for_each (_server_env_fields m) (round self record) σ)
    as [[[]|e] σ1]; simpl in *.
  - rewrite IH.
    + apply Hf. intros ->. apply Hk. left.
    + intros Hr. apply Hk. by right.
  - apply Hf. intros ->. apply Hk. left.
Qed.

Lemma compute_records_log self records σ :
  log σ `prefix_of`
    log (Py.for_each records (λ record,
           Py.for_each (_server_env_fields m) (round self record)) σ).2.
Proof.
  revert σ. induction records as [|record records IH]; intros σ; [done|].
  rewrite for_each_cons.
  pose proof (compute_fields_log self record (_server_env_fields m) σ) as Hf.
  destruct (Py.for_each (_server_env_fields m) (round self record) σ)
    as [[[]|e] σ1]; simpl in *; [|done].
  etrans; [exact Hf | apply IH].
Qed.

(** X6: however a run of the routine ends, it has written no slot of a
    record outside the batch and no slot of a field that is not declared
    (the companion default fields among them, unless declared), and it
    has only added lines to the log. *)
Theorem compute_writes_declared_fields_only
    (self : recordset) (σ : env) (r : Z) (k : string) :
  r ∉ self ∨ k ∉ map fst (_server_env_fields m) →
  cache (compute self σ).2 !! (r, k) = cache σ !! (r, k) ∧
  log σ `prefix_of` log (compute self σ).2.
Proof.
  intros Hk. split; [|apply compute_records_log].
  apply compute_records_frame. intros Hr. by destruct Hk.
Qed.



(** X10: on a type whose companion field is missing (the setup hook has
    not run), the routine raises [KeyError] for the companion as soon as
    the store lacks an entry for the first declared field of a record; it
    writes nothing. *)
Theorem compute_needs_the_companion
    (record : Z) (name field_name getter_name : string)
    (items : list (string * string)) (σ : env) :
  _server_env_fields m = (field_name, getter_name) :: items →
  record_getattr null_of m record "name" σ = (Ok (PyStr name), σ) →
  config_has serv_config
    (str_replace "." "_" (_name m) ++ "." ++ name) field_name = false →
  _fields m !! _server_env_default_fieldname field_name = None →
  compute [record] σ
    = (Raise (KeyError (_server_env_default_fieldname field_name)), σ).
Proof.
  intros Hitems Hname Hhas Hnone.
  unfold _compute_server_env. rewrite Hitems, for_each_cons, for_each_cons.
  pose proof (section_name_run null_of m record name σ) as Hsec.
  rewrite Hname in Hsec. specialize (Hsec eq_refl).
  unfold compute_field. rewrite (bind_run _ _ _ _ _ Hsec).
  unfold config_has in Hhas. rewrite Hhas.
  unfold Py.bind, record_getitem. by rewrite Hnone.
Qed.

End ComputeFrame.

(** ** Computing again *)

Lemma apply_writes_snoc writes w c :
  apply_writes (writes ++ [w]) c = <[w.1 := w.2]> (apply_writes writes c).
Proof. unfold apply_writes. by rewrite foldl_app. Qed.

(** A slot either is not written by the assignments, or ends up with a
    value that does not depend on the cache. *)
Lemma apply_writes_lookup writes key :
  (∀ c, apply_writes writes c !! key = c !! key) ∨
  (∃ v, ∀ c, apply_writes writes c !! key = Some v).
Proof.
  induction writes as [|w writes IH] using rev_ind; [by left|].
  destruct (decide (w.1 = key)) as [<-|Hne].
  - right. exists w.2. intros c. rewrite apply_writes_snoc. apply lookup_insert_eq.
  - destruct IH as [IH | [v IH]]; [left | right; exists v]; intros c;
      rewrite apply_writes_snoc, lookup_insert_ne by done; apply IH.
Qed.

Lemma apply_writes_twice writes c :
  apply_writes writes (apply_writes writes c) = apply_writes writes c.
Proof.
  apply map_eq. intros key.
  destruct (apply_writes_lookup writes key) as [H | [v H]]; by rewrite !H.
Qed.

Section ComputeAgain.

Variable serv_config : ConfigStore.
Variable null_of : string → pyvalue.
Variable m : model.

Local Abbreviation section_name := (_server_env_section_name null_of m).
Local Abbreviation read_from_config := (_server_env_read_from_config serv_config).
Local Abbreviation round := (compute_field serv_config null_of m).
Local Abbreviation compute := (_compute_server_env serv_config null_of m).

(** The section name of a record depends on its display name only. *)
Lemma section_name_same_slot record σ τ :
  cache τ !! (record, "name") = cache σ !! (record, "name") →
  (section_name [record] τ).1 = (section_name [record] σ).1.
Proof.
  intros Hc.
  unfold _server_env_section_name, Py.bind, ensure_one, Py.ret, record_getattr,
    Py.gets, Py.raise, Py.lift.
  destruct (_fields m !! _); [|done]. by rewrite Hc.
Qed.

(** What the helper returns on one record depends on the store only. *)
Lemma read_from_config_same_value record section field getter σ τ :
  (read_from_config [record] section field getter τ).1
    = (read_from_config [record] section field getter σ).1.
Proof.
  unfold _server_env_read_from_config, Py.bind, ensure_one, Py.ret,
    Py.try_except, Py.lift, logger_exception, Py.modify.
  destruct (cfg_getattr serv_config getter) as [get|]; simpl; [|done].
  by destruct (get section field).
Qed.

(** A round reads the display name and the companion of its field; on two
    caches that agree there it assigns the same value. *)
Lemma compute_field_same_inputs record f g σ σ' τ :
  round [record] record (f, g) σ = (Ok tt, σ') →
  cache τ !! (record, "name") = cache σ !! (record, "name") →
  cache τ !! (record, _server_env_default_fieldname f)
    = cache σ !! (record, _server_env_default_fieldname f) →
  ∃ v τ',
    round [record] record (f, g) τ = (Ok tt, τ') ∧
    cache σ' = <[(record, f) := v]> (cache σ) ∧
    cache τ' = <[(record, f) := v]> (cache τ).
Proof.
  intros Hrun Hname Hdef.
  unfold compute_field in Hrun |- *.
  apply bind_ok in Hrun as (sec & σ0 & Hsec & Hrun).
  pose proof (section_name_state null_of m [record] σ) as Hσ.
  rewrite Hsec in Hσ. simpl in Hσ. subst σ0.
  pose proof (section_name_same_slot record σ τ Hname) as Hsecτ.
  pose proof (section_name_state null_of m [record] τ) as Hτ.
  rewrite Hsec in Hsecτ. simpl in Hsecτ.
  destruct (section_name [record] τ) as [rτ τ0] eqn:Hsecτ'.
  simpl in Hsecτ, Hτ. subst rτ τ0.
  rewrite (bind_run _ _ _ _ _ Hsecτ').
  apply bind_ok in Hrun as (v & σ1 & Hv & Hset).
  assert (∃ τ1, (if cfg_contains serv_config sec
                    && cfg_section_contains serv_config sec f
                 then read_from_config [record] sec f g
                 else record_getitem null_of m record
                        (_server_env_default_fieldname f)) τ = (Ok v, τ1) ∧
                cache σ1 = cache σ ∧ cache τ1 = cache τ) as (τ1 & Hvτ & Hc1 & Hc2).
  { destruct (cfg_contains serv_config sec
              && cfg_section_contains serv_config sec f).
    - pose proof (read_from_config_same_value record sec f g σ τ) as Hsame.
      destruct (read_from_config_returns serv_config record sec f g σ)
        as (v1 & σ1' & Hr1 & Hc1 & _).
      destruct (read_from_config_returns serv_config record sec f g τ)
        as (v2 & τ1 & Hr2 & Hc2 & _).
      rewrite Hr1 in Hv. rewrite Hr1, Hr2 in Hsame. simpl in Hsame.
      simplify_eq. by exists τ1.
    - unfold record_getitem, Py.gets, Py.raise in Hv |- *.
      destruct (_fields m !! _server_env_default_fieldname f); [|discriminate].
      exists τ. rewrite Hdef. simplify_eq. done. }
  unfold record_setitem, Py.modify, Py.raise in Hset.
  destruct (_fields m !! f) as [l|] eqn:Hf; [|discriminate].
  simplify_eq.
  exists v, (Env (<[(record, f) := v]> (cache τ1)) (log τ1)).
  split; [|simpl; by rewrite Hc1, Hc2].
  rewrite (bind_run _ _ _ _ _ Hvτ). unfold record_setitem. by rewrite Hf.
Qed.

(** A run of the inner loop is a sequence of assignments that is the same
    on every cache agreeing on what the rounds read, as long as no round
    writes what a round reads. *)
Lemma compute_fields_same_inputs record items σ σ' τ :
  "name" ∉ map fst items →
  (∀ f f', f ∈ map fst items → f' ∈ map fst items →
           f ≠ _server_env_default_fieldname f') →
  Py.for_each items (round [record] record) σ = (Ok tt, σ') →
  cache τ !! (record, "name") = cache σ !! (record, "name") →
  (∀ f, f ∈ map fst items →
     cache τ !! (record, _server_env_default_fieldname f)
       = cache σ !! (record, _server_env_default_fieldname f)) →
  ∃ writes τ',
    Py.for_each items (round [record] record) τ = (Ok tt, τ') ∧
    cache σ' = apply_writes writes (cache σ) ∧
    cache τ' = apply_writes writes (cache τ).
Proof.
  intros Hname Hdisj.
  assert (∀ rest, rest ⊆ items → ∀ σ σ' τ,
    Py.for_each rest (round [record] record) σ = (Ok tt, σ') →
    cache τ !! (record, "name") = cache σ !! (record, "name") →
    (∀ f, f ∈ map fst items →
       cache τ !! (record, _server_env_default_fieldname f)
         = cache σ !! (record, _server_env_default_fieldname f)) →
    ∃ writes τ',
      Py.for_each rest (round [record] record) τ = (Ok tt, τ') ∧
      cache σ' = apply_writes writes (cache σ) ∧
      cache τ' = apply_writes writes (cache τ)) as Hgen.
  { clear σ σ' τ. induction rest as [|[f g] rest IH]; intros Hsub σ σ' τ Hrun Hn Hd.
    - simpl in Hrun. unfold Py.ret in Hrun. simplify_eq. by exists [], τ.
    - rewrite for_each_cons in Hrun.
      destruct (round [record] record (f, g) σ) as [[[]|e] σ1] eqn:Hround;
        [|discriminate].
      assert (f ∈ map fst items) as Hf.
      { apply list_elem_of_fmap. exists (f, g). split; [done|]. apply Hsub. left. }
      destruct (compute_field_same_inputs record f g σ σ1 τ Hround Hn (Hd f Hf))
        as (v & τ1 & Hroundτ & Hc1 & Hc2).
      destruct (IH ltac:(intros x Hx; apply Hsub; by right) σ1 σ' τ1 Hrun)
        as (writes & τ' & Hrest & Hw1 & Hw2).
      + rewrite Hc1, Hc2, !lookup_insert_ne; [done | |];
          intros [= ->]; by apply Hname.
      + intros f' Hf'. rewrite Hc1, Hc2, !lookup_insert_ne; [by apply Hd | |];
          intros [= Heq]; by apply (Hdisj f f').
      + exists ((record, f, v) :: writes), τ'.
        rewrite for_each_cons, Hroundτ.
        split; [done|]. unfold apply_writes in *. simpl. by rewrite <- Hc1, <- Hc2. }
  apply Hgen. done.
Qed.

(** X9: computing again changes nothing.  When the display name and the
    companion default fields are not themselves declared, a second run of
    the routine on a record, after a run that ended well, ends well too
    and leaves every slot of the cache as the first run left it. *)
Theorem compute_again_changes_nothing (record : Z) (σ σ1 : env) :
  "name" ∉ map fst (_server_env_fields m) →
  (∀ f, f ∈ map fst (_server_env_fields m) →
        _server_env_default_fieldname f ∉ map fst (_server_env_fields m)) →
  compute [record] σ = (Ok tt, σ1) →
  ∃ σ2, compute [record] σ1 = (Ok tt, σ2) ∧ cache σ2 = cache σ1.
Proof.
  intros Hname Hdef Hrun.
  assert (∀ τ τ', compute [record] τ = (Ok tt, τ') ↔
            Py.for_each (_server_env_fields m) (round [record] record) τ
              = (Ok tt, τ')) as Hloop.
  { intros τ τ'. unfold _compute_server_env. rewrite for_each_cons.
    destruct (Py.for_each (_server_env_fields m) (round [record] record) τ)
      as [[[]|e] τ1]; simpl; unfold Py.ret; [done|].
    split; discriminate. }
  apply Hloop in Hrun.
  assert (∀ k, k ∉ map fst (_server_env_fields m) →
            cache σ1 !! (record, k) = cache σ !! (record, k)) as Hframe.
  { intros k Hk.
    pose proof (compute_fields_frame serv_config null_of m [record] record
                  (_server_env_fields m) σ record k) as Hf.
    rewrite Hrun in Hf. apply Hf. by intros _. }
  destruct (compute_fields_same_inputs record (_server_env_fields m) σ σ1 σ1)
    as (writes & σ2 & Hagain & Hw1 & Hw2); try done.
  - intros f f' Hf Hf' ->. by apply (Hdef f').
  - by apply Hframe.
  - intros f Hf. by apply Hframe, Hdef.
  - exists σ2. split; [by apply Hloop|].
    by rewrite Hw2, Hw1, apply_writes_twice.
Qed.

End ComputeAgain.

(** * Further properties of the setup hook *)

Lemma append_length s t :
  String.length (s ++ t) = String.length s + String.length t.
Proof. induction s as [|c s IH]; simpl; [done | by rewrite IH]. Qed.

Lemma append_cancel_r s1 s2 t : s1 ++ t = s2 ++ t → s1 = s2.
Proof.
  revert s2. induction s1 as [|c s1 IH]; intros [|c' s2] H; simpl in H.
  - done.
  - apply (f_equal String.length) in H.
    rewrite !append_length in H. simpl in H. lia.
  - apply (f_equal String.length) in H.
    rewrite !append_length in H. simpl in H. lia.
  - injection H as -> H. f_equal. by apply IH.
Qed.

(** X11: two fields have the same companion name only if they are the
    same field, and no field is its own companion. *)
Theorem default_fieldname_injective (a b : string) :
  (_server_env_default_fieldname a = _server_env_default_fieldname b ↔ a = b) ∧
  _server_env_default_fieldname a ≠ a.
Proof.
  unfold _server_env_default_fieldname. split; [split|].
  - apply append_cancel_r.
  - by intros ->.
  - intros H. apply (f_equal String.length) in H.
    rewrite append_length in H. simpl in H. lia.
Qed.

Lemma default_fieldname_inj a b :
  _server_env_default_fieldname a = _server_env_default_fieldname b → a = b.
Proof. apply append_cancel_r. Qed.

(** ** What the hook leaves alone *)

Lemma keeps_refl m : keeps m m.
Proof. split; [done | congruence | eauto 10]. Qed.

Lemma keeps_trans m1 m2 m3 : keeps m1 m2 → keeps m2 m3 → keeps m1 m3.
Proof.
  intros [F1 N1 O1] [F2 N2 O2]. split.
  - eauto.
  - intros k l Hnone Hl.
    destruct (_fields m2 !! k) as [l2|] eqn:Hk.
    + pose proof (F2 k l2 Hk). simplify_eq. eauto.
    + pose proof (N2 k l Hk Hl) as Hl2.
      destruct (field_heap m1 !! l) as [f|] eqn:Hf; [|done].
      destruct (O1 l f Hf) as (f' & Hf' & _). congruence.
  - intros l f Hf.
    destruct (O1 l f Hf) as (f' & Hf' & ? & ? & ?).
    destruct (O2 l f' Hf') as (f'' & Hf'' & ? & ? & ?).
    exists f''. split; [done|]. split; [congruence|]. split; congruence.
Qed.

(** The creation of a companion. *)
Lemma with_default_field_keeps m bf args :
  _fields m !! _server_env_default_fieldname (f_name bf) = None →
  keeps m (with_default_field m bf args) ∧
  ∀ l f, field_heap m !! l = Some f →
         field_heap (with_default_field m bf args) !! l = Some f.
Proof.
  intros Hd.
  assert (∀ l f, field_heap m !! l = Some f → fresh (dom (field_heap m)) ≠ l) as Hfresh.
  { intros l f Hf <-. apply (is_fresh (dom (field_heap m))).
    apply elem_of_dom. by eexists. }
  assert (∀ l f, field_heap m !! l = Some f →
            field_heap (with_default_field m bf args) !! l = Some f) as Hobj.
  { intros l f Hf. unfold with_default_field. simpl.
    rewrite lookup_insert_ne; [done | by eapply Hfresh]. }
  split; [split|]; [| |by eauto 10|done].
  - intros k l Hk. unfold with_default_field. simpl.
    rewrite lookup_insert_ne; [done|]. intros Heq. rewrite Heq in Hd. congruence.
  - intros k l Hk. unfold with_default_field. simpl. intros Hl.
    destruct (decide (_server_env_default_fieldname (f_name bf) = k)) as [Heq|Hne].
    + rewrite Heq, lookup_insert_eq in Hl. injection Hl as <-.
      apply not_elem_of_dom, is_fresh.
    + rewrite lookup_insert_ne in Hl by done. congruence.
Qed.

(** One round, however it ends. *)
Lemma setup_field_keeps fieldname m :
  let m' := (setup_field fieldname m).2 in
  keeps m m' ∧
  ∀ l f, field_heap m !! l = Some f → _fields m !! fieldname ≠ Some l →
         field_heap m' !! l = Some f.
Proof.
  pose proof (setup_field_run fieldname m) as H.
  destruct (_fields m !! fieldname) as [l0|] eqn:Hl0.
  2: { rewrite H. simpl. split; [apply keeps_refl | done]. }
  destruct (field_heap m !! l0) as [f0|] eqn:Hf0.
  2: { rewrite H. simpl. split; [apply keeps_refl | done]. }
  simpl in H.
  set (m1 := set_field_heap (<[l0 := transformed f0]>) m) in *.
  assert (keeps m m1 ∧
          ∀ l f, field_heap m !! l = Some f → Some l0 ≠ Some l →
                 field_heap m1 !! l = Some f) as [K1 U1].
  { split; [split|]; simpl; try done.
    - congruence.
    - intros l f Hf. destruct (decide (l = l0)) as [->|Hne].
      + rewrite lookup_insert_eq. rewrite Hf0 in Hf. injection Hf as <-.
        by exists (transformed f0).
      + rewrite lookup_insert_ne by done. by exists f.
    - intros l f Hf Hne. rewrite lookup_insert_ne; [done | congruence]. }
  assert (_fields m1 = _fields m) as Hfields by done.
  clearbody m1.
  destruct (_fields m !! _server_env_default_fieldname (f_name f0)) eqn:Hd.
  { rewrite H. simpl. done. }
  destruct (dict_heap m !! f_args f0) as [args|] eqn:Ha.
  2: { rewrite H. simpl. done. }
  rewrite H. simpl.
  destruct (with_default_field_keeps m1 (transformed f0) args) as [K2 U2].
  { by rewrite Hfields. }
  split; [by eapply keeps_trans|].
  intros l f Hf Hne. by apply U2, U1.
Qed.

Lemma setup_loop_keeps fieldnames m :
  let m' := (Py.for_each fieldnames setup_field m).2 in
  keeps m m' ∧
  ∀ l f, field_heap m !! l = Some f →
         (∀ k, k ∈ fieldnames → _fields m !! k ≠ Some l) →
         field_heap m' !! l = Some f.
Proof.
  revert m. induction fieldnames as [|g rest IH]; intros m; simpl.
  { split; [apply keeps_refl | done]. }
  fold (Py.for_each rest setup_field).
  change (Py.bind (setup_field g) (λ _, Py.for_each rest setup_field) m)
    with (Py.for_each (g :: rest) setup_field m).
  rewrite for_each_cons.
  destruct (setup_field_keeps g m) as [K1 U1].
  destruct (setup_field g m) as [[[]|e] m1]; simpl in *.
  2: { split; [done|]. intros l f Hf Hk. apply U1; [done|]. apply Hk. left. }
  destruct (IH m1) as [K2 U2].
  split; [by eapply keeps_trans|].
  intros l f Hf Hk. apply U2.
  - apply U1; [done|]. apply Hk. left.
  - intros k Hin Hl.
    destruct (_fields m !! k) as [l0|] eqn:Hk0.
    + pose proof (keeps_fields _ _ K1 k l0 Hk0). simplify_eq.
      by apply (Hk k); [right|].
    + pose proof (keeps_new _ _ K1 k l Hk0 Hl). congruence.
Qed.

(** X12: however the setup hook ends, every name that was registered is
    still registered to the same descriptor object, and that object still
    has its name, its class and its [args] dictionary; a descriptor that
    no declared name is registered to is exactly as it was. *)
Theorem setup_leaves_other_fields_alone
    (m : model) (name : string) (l : loc) (f : field) :
  _fields m !! name = Some l →
  field_heap m !! l = Some f →
  let m' := (_setup_base m).2 in
  _fields m' !! name = Some l ∧
  (∃ f', field_heap m' !! l = Some f' ∧
         f_name f' = f_name f ∧ f_class f' = f_class f ∧ f_args f' = f_args f) ∧
  ((∀ k, k ∈ map fst (_server_env_fields m) → _fields m !! k ≠ Some l) →
   field_heap m' !! l = Some f).
Proof.
  intros Hl Hf m'. subst m'. rewrite setup_base_unfold.
  destruct (setup_loop_keeps (map fst (_server_env_fields m)) m) as [K U].
  split; [by apply (keeps_fields _ _ K)|].
  split; [by apply (keeps_objects _ _ K) | by apply U].
Qed.

(** ** A run of the hook that fails *)

(** The names a run of the loop registers are companions of the names it
    went through. *)
Lemma setup_loop_new_names fieldnames m m1 s :
  fields_named m →
  Py.for_each fieldnames setup_field m = (Ok tt, m1) →
  _fields m !! s = None → is_Some (_fields m1 !! s) →
  ∃ g, g ∈ fieldnames ∧ s = _server_env_default_fieldname g.
Proof.
  revert m. induction fieldnames as [|g rest IH]; intros m Hwf Hrun Hnone Hsome.
  - simpl in Hrun. unfold Py.ret in Hrun. simplify_eq.
    destruct Hsome as [l Hl]. congruence.
  - rewrite for_each_cons in Hrun.
    destruct (setup_field g m) as [[[]|e] m2] eqn:Hg; [|discriminate].
    apply setup_field_ok in Hg as (G & _ & Hnew).
    destruct (_fields m2 !! s) as [l2|] eqn:Hs.
    + destruct (Hnew s Hnone) as (l & f & Hl & Hf & ->); [by eexists|].
      destruct (Hwf g l Hl) as (f' & Hf' & Hn & _). simplify_eq.
      exists (f_name f). split; [left | done].
    + destruct (IH m2) as (g' & Hin & ->); try done.
      * by eapply grows_fields_named.
      * exists g'. split; [by right | done].
Qed.

(** The loop gets through names that all have a field. *)
Lemma setup_loop_total fieldnames m :
  fields_named m →
  (∀ g, g ∈ fieldnames → is_Some (_fields m !! g)) →
  ∃ m1, Py.for_each fieldnames setup_field m = (Ok tt, m1).
Proof.
  revert m. induction fieldnames as [|g rest IH]; intros m Hwf Hall.
  - by exists m.
  - rewrite for_each_cons.
    destruct (setup_field g m) as [[[]|e] m2] eqn:Hg.
    + apply setup_field_ok in Hg as (G & _ & _).
      apply IH; [by eapply grows_fields_named|].
      intros g' Hin. destruct (Hall g') as [l Hl]; [by right|].
      exists l. by apply (grows_fields _ _ G).
    + apply setup_field_raises in Hg as [_ Hg]; [|done].
      destruct (Hall g) as [l Hl]; [left|]. congruence.
Qed.

(** X13: nothing is undone when the hook fails.  If the declared names
    before [fieldname] all have a field and [fieldname] has none (and is no
    companion of theirs), the hook raises [KeyError] for [fieldname] and
    leaves the type with every earlier declared field already transformed
    and its companion registered. *)
Theorem setup_failure_keeps_earlier_changes
    (m : model) (pre post : list string) (fieldname : string) :
  fields_named m →
  map fst (_server_env_fields m) = (pre ++ fieldname :: post)%list →
  (∀ g, g ∈ pre → is_Some (_fields m !! g)) →
  _fields m !! fieldname = None →
  (∀ g, g ∈ pre → _server_env_default_fieldname g ≠ fieldname) →
  ∃ m', _setup_base m = (Raise (KeyError fieldname), m') ∧
        grows m m' ∧
        ∀ g, g ∈ pre → set_up m' g.
Proof.
  intros Hwf Hsplit Hall Hnone Hpre.
  destruct (setup_loop_total pre m Hwf Hall) as [m1 Hrun].
  exists m1. rewrite setup_base_unfold, Hsplit, for_each_app, Hrun, for_each_cons.
  pose proof (setup_loop_ok pre m m1 Hrun) as [G Hset].
  assert (_fields m1 !! fieldname = None) as Hnone1.
  { destruct (_fields m1 !! fieldname) as [l|] eqn:Hl; [|done].
    destruct (setup_loop_new_names pre m m1 fieldname Hwf Hrun Hnone)
      as (g & Hin & Heq); [by eexists|].
    exfalso. by apply (Hpre g). }
  pose proof (setup_field_run fieldname m1) as H. rewrite Hnone1 in H.
  by rewrite H.
Qed.

(** ** The arguments of the fields *)

Lemma default_field_args_lookup args key :
  default_field_args args !! key =
  if decide (key = "automatic") then Some (PyBool true)
  else if decide (key = "sparse") then Some (PyStr "server_env_defaults")
  else if decide (key = "_sequence") then None
  else args !! key.
Proof.
  unfold default_field_args.
  destruct (decide (key = "automatic")) as [->|H1]; [apply lookup_insert_eq|].
  rewrite lookup_insert_ne by done.
  destruct (decide (key = "sparse")) as [->|H2]; [apply lookup_insert_eq|].
  rewrite lookup_insert_ne by done.
  destruct (decide (key = "_sequence")) as [->|H3]; [apply lookup_delete_eq|].
  by rewrite lookup_delete_ne.
Qed.

Lemma default_field_args_twice args :
  default_field_args (default_field_args args) = default_field_args args.
Proof.
  apply map_eq. intros key. rewrite !default_field_args_lookup.
  by repeat case_decide.
Qed.

Lemma args_evolve_refl m : args_evolve m m.
Proof. intros d a Ha. by left. Qed.

Lemma args_evolve_trans m1 m2 m3 :
  args_evolve m1 m2 → args_evolve m2 m3 → args_evolve m1 m3.
Proof.
  intros H1 H2 d a Ha.
  destruct (H1 d a Ha) as [Ha2 | Ha2]; destruct (H2 _ _ Ha2) as [Ha3 | Ha3];
    rewrite ?default_field_args_twice in Ha3; eauto.
Qed.

Lemma with_default_field_args m bf args :
  dict_heap m !! f_args bf = Some args →
  let m' := with_default_field m bf args in
  args_evolve m m' ∧
  ∃ ld default_field,
    _fields m' !! _server_env_default_fieldname (f_name bf) = Some ld ∧
    field_heap m' !! ld = Some default_field ∧
    f_class default_field = f_class bf ∧
    f_args default_field ≠ f_args bf ∧
    dict_heap m' !! f_args default_field = Some (default_field_args args) ∧
    dict_heap m' !! f_args bf = Some (default_field_args args).
Proof.
  intros Ha m'. subst m'.
  set (dicts := <[f_args bf := default_field_args args]> (dict_heap m)).
  assert (∀ d, is_Some (dicts !! d) → fresh (dom dicts) ≠ d) as Hfresh.
  { intros d Hd <-. apply (is_fresh (dom dicts)). by apply elem_of_dom. }
  assert (fresh (dom dicts) ≠ f_args bf) as Hne.
  { apply Hfresh. unfold dicts. rewrite lookup_insert_eq. by eexists. }
  split.
  - intros d a Hd. unfold with_default_field. fold dicts. simpl.
    destruct (decide (d = f_args bf)) as [->|Hd'].
    + right. rewrite lookup_insert_ne by done. unfold dicts.
      rewrite lookup_insert_eq. congruence.
    + left. rewrite lookup_insert_ne.
      * unfold dicts. by rewrite lookup_insert_ne.
      * apply Hfresh. unfold dicts. rewrite lookup_insert_ne by done. by eexists.
  - unfold with_default_field. fold dicts. simpl.
    eexists _, _. split; [apply lookup_insert_eq|].
    split; [apply lookup_insert_eq|]. simpl.
    split; [done|]. split; [done|].
    split; [apply lookup_insert_eq|].
    rewrite lookup_insert_ne by done. apply lookup_insert_eq.
Qed.

Lemma args_evolve_same m m' : dict_heap m' = dict_heap m → args_evolve m m'.
Proof. intros H d a Ha. left. by rewrite H. Qed.

(** One round, however it ends. *)
Lemma setup_field_args fieldname m :
  args_evolve m (setup_field fieldname m).2.
Proof.
  pose proof (setup_field_run fieldname m) as H.
  destruct (_fields m !! fieldname) as [l0|];
    [|rewrite H; by apply args_evolve_same].
  destruct (field_heap m !! l0) as [f0|];
    [|rewrite H; by apply args_evolve_same].
  simpl in H.
  destruct (_fields m !! _server_env_default_fieldname (f_name f0));
    [rewrite H; by apply args_evolve_same|].
  destruct (dict_heap m !! f_args f0) as [args|] eqn:Ha;
    [|rewrite H; by apply args_evolve_same].
  rewrite H. simpl.
  exact (proj1 (with_default_field_args
                  (set_field_heap (<[l0 := transformed f0]>) m)
                  (transformed f0) args Ha)).
Qed.

Lemma setup_loop_args fieldnames m :
  args_evolve m (Py.for_each fieldnames setup_field m).2.
Proof.
  revert m. induction fieldnames as [|g rest IH]; intros m.
  - apply args_evolve_refl.
  - rewrite for_each_cons. pose proof (setup_field_args g m) as Hg.
    destruct (setup_field g m) as [[[]|e] m1]; simpl in *; [|done].
    eapply args_evolve_trans; [exact Hg | apply IH].
Qed.

(** X15: however the setup hook ends, every dictionary of constructor
    arguments is still there and differs from what it was at most in the
    keys ["_sequence"], ["sparse"] and ["automatic"]. *)
Theorem setup_touches_three_arguments_only
    (m : model) (d : loc) (args : gmap string pyvalue) :
  dict_heap m !! d = Some args →
  ∃ args', dict_heap (_setup_base m).2 !! d = Some args' ∧
           ∀ key, key ∉ ["_sequence"; "sparse"; "automatic"] →
                  args' !! key = args !! key.
Proof.
  intros Hd. rewrite setup_base_unfold.
  destruct (setup_loop_args (map fst (_server_env_fields m)) m d args Hd)
    as [H | H]; eexists; (split; [exact H|]); [done|].
  intros key Hkey. rewrite default_field_args_lookup.
  repeat case_decide; try done; subst; exfalso; apply Hkey; repeat constructor.
Qed.

(** ** What the companion is made of *)

Lemma args_evolve_default m m' d args :
  args_evolve m m' →
  dict_heap m !! d = Some (default_field_args args) →
  dict_heap m' !! d = Some (default_field_args args).
Proof.
  intros H Hd. destruct (H _ _ Hd) as [H' | H']; [done|].
  by rewrite default_field_args_twice in H'.
Qed.

(** The round that creates a companion. *)
Lemma setup_field_creates fieldname m m' l f args :
  setup_field fieldname m = (Ok tt, m') →
  _fields m !! fieldname = Some l →
  field_heap m !! l = Some f →
  dict_heap m !! f_args f = Some args →
  _fields m !! _server_env_default_fieldname (f_name f) = None →
  ∃ ld default_field,
    _fields m' !! _server_env_default_fieldname (f_name f) = Some ld ∧
    field_heap m' !! ld = Some default_field ∧
    f_class default_field = f_class f ∧
    f_args default_field ≠ f_args f ∧
    dict_heap m' !! f_args default_field = Some (default_field_args args) ∧
    dict_heap m' !! f_args f = Some (default_field_args args).
Proof.
  intros Hrun Hl Hf Ha Hd.
  pose proof (setup_field_run fieldname m) as H.
  rewrite Hl, Hf in H. simpl in H. rewrite Hd, Ha in H.
  rewrite H in Hrun. injection Hrun as <-.
  exact (proj2 (with_default_field_args
                  (set_field_heap (<[l := transformed f]>) m)
                  (transformed f) args Ha)).
Qed.

Lemma companion_of_field fieldnames :
  ∀ m m1 fieldname l f args0 args,
    fields_named m →
    Py.for_each fieldnames setup_field m = (Ok tt, m1) →
    fieldname ∈ fieldnames →
    _fields m !! fieldname = Some l →
    field_heap m !! l = Some f →
    dict_heap m !! f_args f = Some args0 →
    default_field_args args0 = default_field_args args →
    _fields m !! _server_env_default_fieldname fieldname = None →
    ∃ ld default_field,
      _fields m1 !! _server_env_default_fieldname fieldname = Some ld ∧
      field_heap m1 !! ld = Some default_field ∧
      f_class default_field = f_class f ∧
      f_args default_field ≠ f_args f ∧
      dict_heap m1 !! f_args default_field = Some (default_field_args args) ∧
      dict_heap m1 !! f_args f = Some (default_field_args args).
Proof.
  induction fieldnames as [|g rest IH];
    intros m m1 fieldname l f args0 args Hwf Hrun Hin Hl Hf Ha Hargs Hd.
  { by apply elem_of_nil in Hin. }
  rewrite for_each_cons in Hrun.
  destruct (setup_field g m) as [[[]|e] m2] eqn:Hg; [|discriminate].
  pose proof (setup_field_args g m) as E1. rewrite Hg in E1. simpl in E1.
  pose proof (setup_loop_args rest m2) as E2. rewrite Hrun in E2. simpl in E2.
  pose proof (setup_loop_ok rest m2 m1 Hrun) as [G2 _].
  pose proof Hg as Hg'.
  apply setup_field_ok in Hg' as (G1 & _ & Hnew).
  destruct (Hwf fieldname l Hl) as (f' & Hf' & Hn & _).
  rewrite Hf in Hf'. injection Hf' as <-.
  destruct (decide (g = fieldname)) as [->|Hne].
  - rewrite <- Hn in Hd.
    destruct (setup_field_creates fieldname m m2 l f args0 Hg Hl Hf Ha Hd)
      as (ld & df & Hld & Hdf & Hc & Hne & Hda & Hfa).
    rewrite Hn in Hld. rewrite Hargs in Hda, Hfa.
    destruct (grows_objects _ _ G2 ld df Hdf) as (df' & Hdf' & _ & Ha' & Hc' & _).
    exists ld, df'. split; [by apply (grows_fields _ _ G2)|].
    split; [done|]. split; [congruence|]. rewrite Ha'.
    split; [done|]. split; by eapply args_evolve_default.
  - apply elem_of_cons in Hin as [->|Hin]; [done|].
    destruct (grows_objects _ _ G1 l f Hf) as (f2 & Hf2 & Hn2 & Ha2 & Hc2 & _).
    destruct (E1 _ _ Ha) as [Ha0 | Ha0].
    + destruct (IH m2 m1 fieldname l f2 args0 args) as (ld & df & H);
        try done; try congruence.
      * by eapply grows_fields_named.
      * by apply (grows_fields _ _ G1).
      * destruct (_fields m2 !! _server_env_default_fieldname fieldname)
          as [l2|] eqn:H2; [|done].
        destruct (Hnew _ Hd) as (lg & fg & Hlg & Hfg & Heq); [by eexists|].
        destruct (Hwf g lg Hlg) as (fg' & Hfg' & Hng & _). simplify_eq.
        apply default_fieldname_inj in Heq. congruence.
      * exists ld, df. by rewrite <- Hc2, <- Ha2.
    + destruct (IH m2 m1 fieldname l f2 (default_field_args args0) args)
        as (ld & df & H); try done; try congruence.
      * by eapply grows_fields_named.
      * by apply (grows_fields _ _ G1).
      * by rewrite default_field_args_twice.
      * destruct (_fields m2 !! _server_env_default_fieldname fieldname)
          as [l2|] eqn:H2; [|done].
        destruct (Hnew _ Hd) as (lg & fg & Hlg & Hfg & Heq); [by eexists|].
        destruct (Hwf g lg Hlg) as (fg' & Hfg' & Hng & _). simplify_eq.
        apply default_fieldname_inj in Heq. congruence.
      * exists ld, df. by rewrite <- Hc2, <- Ha2.
Qed.

(** X14: the companion is a copy of the field.  After a run of the setup
    hook that ends well, the companion it created for a declared field of
    the type is a descriptor of the class of that field, whose arguments
    are those the field had before the run, without ["_sequence"] and with
    ["sparse"] and ["automatic"] set; they are in a dictionary of its own,
    and the dictionary of the field itself now holds the same. *)
Theorem companion_is_a_copy_of_the_field
    (m m1 : model) (fieldname : string) (l : loc) (f : field)
    (args : gmap string pyvalue) :
  fields_named m →
  _setup_base m = (Ok tt, m1) →
  fieldname ∈ map fst (_server_env_fields m) →
  _fields m !! fieldname = Some l →
  field_heap m !! l = Some f →
  dict_heap m !! f_args f = Some args →
  _fields m !! _server_env_default_fieldname fieldname = None →
  ∃ ld default_field,
    _fields m1 !! _server_env_default_fieldname fieldname = Some ld ∧
    field_heap m1 !! ld = Some default_field ∧
    f_class default_field = f_class f ∧
    f_args default_field ≠ f_args f ∧
    dict_heap m1 !! f_args default_field = Some (default_field_args args) ∧
    dict_heap m1 !! f_args f = Some (default_field_args args).
Proof.
  intros Hwf Hrun Hin Hl Hf Ha Hd. rewrite setup_base_unfold in Hrun.
  by eapply (companion_of_field _ m m1 fieldname l f args args).
Qed.

(** * The further properties on the example types *)

Lemma compute_nothing_to_do_witness :
  _server_env_fields Mixin.bare = [] ∧
  _compute_server_env Example.serv_config Example.null_of Mixin.bare
      [1%Z; 2%Z; 3%Z] Example.records
    = (Ok tt, Example.records).
Proof.
  split; [reflexivity|].
  apply compute_nothing_to_do. right. reflexivity.
Defined.

Lemma compute_raises_on_every_batch_witness :
  (2 ≤ List.length [1%Z; 2%Z; 3%Z])%nat ∧
  _server_env_fields Example.storage_backend_ready ≠ [] ∧
  _compute_server_env Example.serv_config Example.null_of
      Example.storage_backend_ready [1%Z; 2%Z; 3%Z] Example.records
    = (Raise (ValueError "Expected singleton"), Example.records).
Proof.
  assert (_server_env_fields Example.storage_backend_ready ≠ []) as H.
  { vm_compute. discriminate. }
  split; [simpl; lia|]. split; [exact H|].
  apply compute_raises_on_every_batch; [simpl; lia | exact H].
Defined.

(** Record 4 has no display name in the cache: it reads [False]. *)
Lemma compute_needs_a_display_name_witness :
  record_getattr Example.null_of Example.storage_backend_ready 4 "name"
      Example.records = (Ok (PyBool false), Example.records) ∧
  _compute_server_env Example.serv_config Example.null_of
      Example.storage_backend_ready [4%Z] Example.records
    = (Raise (TypeError "sequence item: expected str instance"), Example.records).
Proof.
  assert (record_getattr Example.null_of Example.storage_backend_ready 4 "name"
            Example.records = (Ok (PyBool false), Example.records)) as Hname
    by (vm_compute; reflexivity).
  split; [exact Hname|].
  assert (_server_env_fields Example.storage_backend_ready ≠ []) as H.
  { vm_compute. discriminate. }
  pose proof (compute_needs_a_display_name Example.serv_config Example.null_of
                Example.storage_backend_ready 4 Example.records H) as Hthm.
  assert (_fields Example.storage_backend_ready !! "name" = Some 1%positive) as Hl
    by (vm_compute; reflexivity).
  rewrite Hl in Hthm. apply (Hthm (PyBool false) Hname). discriminate.
Defined.

Lemma read_from_config_returns_the_value_witness :
  _server_env_read_from_config Example.serv_config [1%Z]
      "storage_backend.Primary" "directory_path" "get" Example.records
    = (Ok (PyStr "/srv/primary"), Example.records).
Proof.
  apply (read_from_config_returns_the_value Example.serv_config 1
           "storage_backend.Primary" "directory_path" "get"
           (Resolver.typed Example.sections (λ v, Ok (PyStr v)))).
  - reflexivity.
  - vm_compute. reflexivity.
Defined.

Lemma read_from_config_needs_one_record_witness :
  _server_env_read_from_config Example.serv_config [1%Z; 2%Z]
      "storage_backend.Primary" "directory_path" "get" Example.records
    = (Raise (ValueError "Expected singleton"), Example.records).
Proof. apply read_from_config_needs_one_record. simpl. lia. Defined.

(** Resolving "Primary" leaves its stored default and the slots of
    "Secondary" as they were. *)
Lemma compute_writes_declared_fields_only_witness :
  let run := _compute_server_env Example.serv_config Example.null_of
               Example.storage_backend_ready [1%Z] Example.records in
  cache run.2 !! (1%Z, "directory_path_env_default")
    = cache Example.records !! (1%Z, "directory_path_env_default") ∧
  cache run.2 !! (2%Z, "directory_path")
    = cache Example.records !! (2%Z, "directory_path").
Proof.
  intros run. split.
  - apply (compute_writes_declared_fields_only Example.serv_config Example.null_of
             Example.storage_backend_ready [1%Z] Example.records
             1 "directory_path_env_default").
    right. apply (bool_decide_unpack _). vm_compute. exact I.
  - apply (compute_writes_declared_fields_only Example.serv_config Example.null_of
             Example.storage_backend_ready [1%Z] Example.records
             2 "directory_path").
    left. apply (bool_decide_unpack _). vm_compute. exact I.
Defined.


Lemma compute_completes_after_setup_witness :
  _setup_base Example.storage_backend = (Ok tt, Example.storage_backend_ready) ∧
  (_compute_server_env Example.serv_config Example.null_of
     Example.storage_backend_ready [1%Z] Example.records).1 = Ok tt.
Proof.
  assert (_setup_base Example.storage_backend
          = (Ok tt, Example.storage_backend_ready)) as Hrun
    by (vm_compute; reflexivity).
  split; [exact Hrun|].
  apply (compute_completes_after_setup Example.serv_config Example.null_of
           Example.storage_backend Example.storage_backend_ready 1 "Primary"
           Example.records fields_named_storage_backend Hrun).
  - apply (bool_decide_unpack _). vm_compute. exact I.
  - vm_compute. reflexivity.
Defined.

Lemma compute_again_changes_nothing_witness :
  let compute := _compute_server_env Example.serv_config Example.null_of
                   Example.storage_backend_ready in
  (compute [1%Z] Example.records).1 = Ok tt ∧
  ∃ σ2, compute [1%Z] (compute [1%Z] Example.records).2 = (Ok tt, σ2) ∧
        cache σ2 = cache (compute [1%Z] Example.records).2.
Proof.
  intros compute. split; [vm_compute; reflexivity|].
  apply (compute_again_changes_nothing Example.serv_config Example.null_of
           Example.storage_backend_ready 1 Example.records).
  - apply (bool_decide_unpack _). vm_compute. exact I.
  - intros f Hf.
    assert (map fst (_server_env_fields Example.storage_backend_ready)
            = ["directory_path"; "sftp_port"]) as Hkeys by (vm_compute; reflexivity).
    rewrite Hkeys in Hf |- *.
    apply elem_of_cons in Hf as [->|Hf];
      [|apply list_elem_of_singleton in Hf as ->];
      apply (bool_decide_unpack _); vm_compute; exact I.
  - vm_compute. reflexivity.
Defined.

(** "Secondary" on the type before setup. *)
Lemma compute_needs_the_companion_witness :
  _fields Example.storage_backend !! "directory_path_env_default" = None ∧
  _compute_server_env Example.serv_config Example.null_of
      Example.storage_backend [2%Z] Example.records
    = (Raise (KeyError "directory_path_env_default"), Example.records).
Proof.
  split; [reflexivity|].
  apply (compute_needs_the_companion Example.serv_config Example.null_of
           Example.storage_backend 2 "Secondary" "directory_path" "get"
           [("sftp_port", "get_int")]).
  - reflexivity.
  - vm_compute. reflexivity.
  - vm_compute. reflexivity.
  - reflexivity.
Defined.

(** On [storage.backend] the declared [directory_path] stays registered
    to its object, and the undeclared [name] keeps its descriptor as it
    was. *)
Lemma setup_leaves_other_fields_alone_witness :
  let f := Field "Char" "name" 11%positive None None None None in
  let g := Field "Char" "directory_path" 12%positive
             None (Some (PyBool true)) (Some (PyBool true)) None in
  field_heap Example.storage_backend !! 1%positive = Some f ∧
  field_heap Example.storage_backend !! 2%positive = Some g ∧
  _fields Example.storage_backend_ready !! "name" = Some 1%positive ∧
  field_heap Example.storage_backend_ready !! 1%positive = Some f ∧
  _fields Example.storage_backend_ready !! "directory_path" = Some 2%positive ∧
  ∃ g', field_heap Example.storage_backend_ready !! 2%positive = Some g' ∧
        f_name g' = "directory_path" ∧ f_class g' = "Char" ∧
        f_args g' = 12%positive.
Proof.
  intros f g. do 2 (split; [vm_compute; reflexivity|]).
  destruct (setup_leaves_other_fields_alone Example.storage_backend "name" 1 f)
    as (Hname & _ & Hsame); [vm_compute; reflexivity..|].
  destruct (setup_leaves_other_fields_alone Example.storage_backend
              "directory_path" 2 g)
    as (Hpath & Hobj & _); [vm_compute; reflexivity..|].
  split; [exact Hname|]. split; [|split; [exact Hpath | exact Hobj]].
  apply Hsame. intros k Hk.
  apply elem_of_cons in Hk as [->|Hk];
    [|apply list_elem_of_singleton in Hk as ->]; vm_compute; discriminate.
Defined.

Lemma setup_failure_keeps_earlier_changes_witness :
  ∃ m', _setup_base Example.misdeclared_backend
          = (Raise (KeyError "sftp_login"), m') ∧
        set_up m' "directory_path".
Proof.
  destruct (setup_failure_keeps_earlier_changes Example.misdeclared_backend
              ["directory_path"] [] "sftp_login"
              fields_named_misdeclared_backend eq_refl)
    as (m' & Hrun & _ & Hset).
  - intros g ->%list_elem_of_singleton. eexists. vm_compute. reflexivity.
  - reflexivity.
  - intros g ->%list_elem_of_singleton. discriminate.
  - exists m'. split; [exact Hrun|]. apply Hset. left.
Defined.

Lemma companion_is_a_copy_of_the_field_witness :
  ∃ ld default_field,
    _fields Example.storage_backend_ready !! "directory_path_env_default" = Some ld ∧
    field_heap Example.storage_backend_ready !! ld = Some default_field ∧
    f_class default_field = "Char" ∧
    dict_heap Example.storage_backend_ready !! f_args default_field
      = Some (default_field_args
                {[ "_sequence" := PyInt 8; "string" := PyStr "Path" ]}).
Proof.
  destruct (companion_is_a_copy_of_the_field Example.storage_backend
              Example.storage_backend_ready "directory_path" 2
              (Field "Char" "directory_path" 12%positive
                 None (Some (PyBool true)) (Some (PyBool true)) None)
              {[ "_sequence" := PyInt 8; "string" := PyStr "Path" ]}
              fields_named_storage_backend)
    as (ld & df & H1 & H2 & H3 & _ & H4 & _).
  - vm_compute. reflexivity.
  - left.
  - vm_compute. reflexivity.
  - vm_compute. reflexivity.
  - vm_compute. reflexivity.
  - reflexivity.
  - exists ld, df. by repeat split.
Defined.

Lemma setup_touches_three_arguments_only_witness :
  ∃ args', dict_heap Example.storage_backend_ready !! 12%positive = Some args' ∧
           args' !! "string" = Some (PyStr "Path").
Proof.
  destruct (setup_touches_three_arguments_only Example.storage_backend 12
              {[ "_sequence" := PyInt 8; "string" := PyStr "Path" ]})
    as (args' & Hd & Hkeys).
  - vm_compute. reflexivity.
  - exists args'. split; [exact Hd|].
    rewrite Hkeys; [vm_compute; reflexivity|].
    apply (bool_decide_unpack _). vm_compute. exact I.
Defined.

(** * The companion that the hook creates *)





(** Why the companion's name must not be declared: on
    [Example.chained_backend], which declares [directory_path] and then
    [directory_path_env_default], the hook creates the companion with
    arguments that store it in [server_env_defaults], and its next round
    transforms that very descriptor: [sparse] is [None], [store] is
    [False] and it is computed from the environment. *)
Lemma declared_companion_is_transformed :
  let m1 := (_setup_base Example.chained_backend).2 in
  ∃ ld default_field args,
    _fields Example.chained_backend !! "directory_path_env_default" = None ∧
    _fields m1 !! "directory_path_env_default" = Some ld ∧
    field_heap m1 !! ld = Some default_field ∧
    dict_heap m1 !! f_args default_field = Some args ∧
    args !! "sparse" = Some (PyStr "server_env_defaults") ∧
    f_sparse default_field = Some PyNone ∧
    f_store default_field = Some (PyBool false) ∧
    f_compute default_field = Some (PyStr "_compute_server_env").
Proof.
  intros m1.
  exists 3%positive,
    (Field "Char" "directory_path_env_default" 13%positive
       (Some (PyStr "_compute_server_env")) (Some (PyBool false))
       (Some (PyBool false)) (Some PyNone)),
    (default_field_args ∅).
  split; [reflexivity|].
  do 3 (split; [vm_compute; reflexivity|]).
  split; [vm_compute; reflexivity|]. done.
Qed.
